(** * Dataset downloader: a shallow embedding of
      [Dataset/download_multi-view_data.py]

    The script is a thin orchestration around four kinds of external
    effects: importing the optional [gdown] package, reading and changing
    the filesystem through [os], calling [gdown.download_folder], and
    writing diagnostics through [logging] and [print].  The embedding
    threads a [world] value (filesystem, import outcome, and the
    chronological trace of everything the script did) through an
    exception monad, so that [try]/[except] blocks, [sys.exit] and the
    order of effects read as they do in the Python text.

    Conventions of the model
    - paths are POSIX paths; they are resolved against the working
      directory of the process, lexically (empty and [.] components are
      dropped, [..] removes the component before it), and there are no
      symbolic links and no permission bits.  For a name without [..]
      components, in a tree where every node lies in a directory, this is
      where the operating system leads; a name with [..] is resolved by the
      operating system through the directories on the way, which the model
      does not follow, and the statements that depend on where a name leads
      are made for names without [..];
    - the interpreter's treatment of an exception that reaches the top
      level is the standard one: exit status 0 on normal return, the
      requested status for [SystemExit], 1 for any other exception
      (an interrupt is reported by the signal instead, also non-zero);
    - the command line is read as a sequence of pairs, an option string
      followed by one further word; what [argparse] writes (help, usage,
      error texts) is recorded as an event without its wording. *)

From Stdlib Require Import ZArith Ascii String List Lia.
From stdpp Require Import gmap strings list pretty.

Local Open Scope Z_scope.
Local Open Scope nat_scope.

(** ** Python string operations used by the script *)

Module PyStr.

(** The line feed written [\n] in Python literals. *)
Definition nl : string := String "010"%char EmptyString.

(** [s.endswith(suffix)]: the last [len(suffix)] characters of [s] are
    [suffix]; characters are compared exactly (no case folding). *)
Definition endswith (s suffix : string) : bool :=
  let n := String.length s in
  let k := String.length suffix in
  bool_decide (k ≤ n) && String.eqb (String.substring (n - k) k s) suffix.

(** [s.startswith(p)]. *)
Definition startswith (s p : string) : bool := String.prefix p s.

(** [sub in s]. *)
Fixpoint contains (sub s : string) : bool :=
  String.prefix sub s ||
  match s with
  | EmptyString => false
  | String _ s' => contains sub s'
  end.

(** [s * n]. *)
Fixpoint mul (s : string) (n : nat) : string :=
  match n with
  | 0 => EmptyString
  | S n' => s +:+ mul s n'
  end.

(** [sep.join(l)]. *)
Definition join (sep : string) (l : list string) : string :=
  String.concat sep l.

(** [str(n)] for a non-negative integer, as an f-string renders
    [len(...)]. *)
Definition str_nat (n : nat) : string := pretty n.

(** [s.split(sep)] for a one-character separator. *)
Fixpoint split (sep : ascii) (s : string) : list string :=
  match s with
  | EmptyString => [EmptyString]
  | String c s' =>
      if Ascii.eqb c sep then EmptyString :: split sep s'
      else match split sep s' with
           | [] => [String c EmptyString]
           | h :: t => String c h :: t
           end
  end.

End PyStr.

(** ** Exceptions *)

(** The classes below [Exception] that the model distinguishes.
    [LibraryError] stands for any class a third-party package derives from
    [Exception] (for instance the ones [gdown] defines). *)
Inductive error_class : Type :=
  | ImportError
  | ModuleNotFoundError        (* subclass of ImportError *)
  | OSError
  | FileExistsError            (* subclasses of OSError *)
  | FileNotFoundError
  | NotADirectoryError
  | PermissionError
  | ConnectionError
  | RuntimeError
  | ValueError
  | AttributeError
  | LibraryError (name : string).

(** A raised exception.  [SystemExit] and [KeyboardInterrupt] derive from
    [BaseException] directly; everything else is an instance of
    [Exception] and carries the text [str(e)]. *)
Inductive exn : Type :=
  | SystemExit (code : Z)
  | KeyboardInterrupt
  | Error (cls : error_class) (text : string).

(** [isinstance(e, Exception)]: what [except Exception] matches. *)
Definition isinstance_Exception (e : exn) : bool :=
  match e with
  | Error _ _ => true
  | SystemExit _ | KeyboardInterrupt => false
  end.

(** [isinstance(e, ImportError)]: what [except ImportError] matches. *)
Definition isinstance_ImportError (e : exn) : bool :=
  match e with
  | Error ImportError _ | Error ModuleNotFoundError _ => true
  | _ => false
  end.

(** [str(e)], as the f-string [{e}] renders a caught exception. *)
Definition str_exn (e : exn) : string :=
  match e with
  | SystemExit code => pretty code
  | KeyboardInterrupt => EmptyString
  | Error _ text => text
  end.

(** ** Paths and the filesystem *)

Abbreviation path := (list string) (only parsing).

Inductive kind : Type := File | Dir.

#[global] Instance kind_eq_dec : EqDecision kind.
Proof. solve_decision. Defined.

Module Path.

(** One step of lexical normalisation. *)
Definition step (acc : path) (c : string) : path :=
  if String.eqb c EmptyString then acc
  else if String.eqb c "." then acc
  else if String.eqb c ".." then removelast acc
  else acc ++ [c].

Definition normalize (base : path) (components : list string) : path :=
  fold_left step components base.

Definition is_absolute (name : string) : bool := PyStr.startswith name "/".

(** The node a path string denotes, from the filesystem root. *)
Definition resolve (cwd : path) (name : string) : path :=
  normalize (if is_absolute name then [] else cwd) (PyStr.split "/"%char name).

(** The text of an absolute path. *)
Definition render (p : path) : string := "/" +:+ PyStr.join "/" p.

(** [os.path.abspath(name)]: the name, joined to the working directory
    when it is relative, and normalised lexically by [os.path.normpath];
    a name that begins with exactly two slashes keeps both. *)
Definition abspath (cwd : path) (name : string) : string :=
  (if PyStr.startswith name "//" && negb (PyStr.startswith name "///")
   then "//" else "/")
  +:+ PyStr.join "/" (resolve cwd name).

(** [strip p q = Some r] when [q = p ++ r]. *)
Fixpoint strip (p q : path) : option path :=
  match p, q with
  | [], _ => Some q
  | c :: p', d :: q' => if String.eqb c d then strip p' q' else None
  | _ :: _, [] => None
  end.

(** The name under which [q] is listed in directory [p], if [q] is a
    direct entry of [p]. *)
Definition entry_name (p q : path) : option string :=
  match strip p q with
  | Some [c] => Some c
  | _ => None
  end.

End Path.

(** The directory tree: every node other than the root, by its absolute
    path.  The root is always a directory. *)
Definition stat (m : gmap path kind) (p : path) : option kind :=
  match p with
  | [] => Some Dir
  | _ => m !! p
  end.

(** Names of the direct entries of directory [p]. *)
Definition entries (m : gmap path kind) (p : path) : list string :=
  omap (Path.entry_name p) (map_to_list m).*1.


(** ** The process and its environment *)

Inductive level : Type := INFO | WARNING | ERROR.

(** What [argparse] writes by itself: the help text (on standard output),
    or a usage line with an error message (on standard error). *)
Inductive argparse_report : Type := HelpText | UsageError.

(** What the script does to the outside, in the order it does it. *)
Inductive event : Type :=
  | Log (lv : level) (msg : string)          (* logging.info / warning / error *)
  | Print (text : string)                    (* print(text) *)
  | Argparse (report : argparse_report)      (* written by argparse *)
  | CallMakedirs (name : string)             (* os.makedirs(name) *)
  | CallListdir (name : string)              (* os.listdir(name) *)
  | CallDownloadFolder (url output : string) (quiet remaining_ok : bool).
                                             (* gdown.download_folder(...) *)

(** The [gdown] package, as far as the script uses it: the behaviour of
    [download_folder(url, output, quiet, remaining_ok)], which may change
    the directory tree in any way and then return or raise. *)
Record gdown_module : Type := {
  download_folder :
    string → string → bool → bool → gmap path kind → gmap path kind * option exn
}.

(** What [import gdown] does in this environment. *)
Inductive import_result : Type :=
  | Imported (gdown : gdown_module)
  | ImportFails (e : exn).

Record world : Type := {
  import_gdown : import_result;
  cwd : path;
  fs : gmap path kind;
  trace : list event
}.

Definition with_fs (m : gmap path kind) (w : world) : world :=
  {| import_gdown := import_gdown w; cwd := cwd w; fs := m; trace := trace w |}.

Definition with_event (ev : event) (w : world) : world :=
  {| import_gdown := import_gdown w; cwd := cwd w; fs := fs w;
     trace := trace w ++ [ev] |}.

(** ** Computations that may raise *)

Inductive outcome (A : Type) : Type :=
  | Returned (a : A)
  | Raised (e : exn).
Arguments Returned {A} a.
Arguments Raised {A} e.

Definition py (A : Type) : Type := world → outcome A * world.

Definition ret {A} (a : A) : py A := λ w, (Returned a, w).

Definition bind {A B} (c : py A) (k : A → py B) : py B :=
  λ w, match c w with
       | (Returned a, w') => k a w'
       | (Raised e, w') => (Raised e, w')
       end.

Definition raise {A} (e : exn) : py A := λ w, (Raised e, w).

(** [try: body  except C as e: handler e], where [matches] decides
    [isinstance(e, C)].  An exception that does not match, or one raised by
    the handler, propagates. *)
Definition try_except {A} (body : py A) (matches : exn → bool)
    (handler : exn → py A) : py A :=
  λ w, match body w with
       | (Returned a, w') => (Returned a, w')
       | (Raised e, w') => if matches e then handler e w' else (Raised e, w')
       end.

Definition emit (ev : event) : py unit := λ w, (Returned (), with_event ev w).

Declare Scope py_scope.
Delimit Scope py_scope with py.
Notation "x <~ c ;; k" := (bind c (λ x, k))
  (at level 100, c at next level, k at level 200, right associativity) : py_scope.
Notation "c ;; k" := (bind c (λ _, k))
  (at level 100, k at level 200, right associativity) : py_scope.
Local Open Scope py_scope.

(** The result and the final world of a computation. *)
Definition result {A} (c : py A) (w : world) : outcome A := (c w).1.
Definition final {A} (c : py A) (w : world) : world := (c w).2.

(** The events a computation adds to the trace. *)
Definition emitted {A} (c : py A) (w : world) : list event :=
  drop (length (trace w)) (trace (final c w)).

(** ** The standard library, as far as the script uses it *)

Definition logging_info (msg : string) : py unit := emit (Log INFO msg).
Definition logging_warning (msg : string) : py unit := emit (Log WARNING msg).
Definition logging_error (msg : string) : py unit := emit (Log ERROR msg).
Definition print (text : string) : py unit := emit (Print text).

(** The line [logging.basicConfig(level=logging.INFO,
    format='%(levelname)s: %(message)s')] makes of a record. *)
Definition levelname (lv : level) : string :=
  match lv with INFO => "INFO" | WARNING => "WARNING" | ERROR => "ERROR" end.
Definition format_record (lv : level) (msg : string) : string :=
  levelname lv +:+ ": " +:+ msg.

(** [sys.exit(code)] raises [SystemExit]. *)
Definition sys_exit {A} (code : Z) : py A := raise (SystemExit code).

(** [import gdown]. *)
Definition import_module_gdown : py gdown_module :=
  λ w, match import_gdown w with
       | Imported gdown => (Returned gdown, w)
       | ImportFails e => (Raised e, w)
       end.

(** [repr(name)], for a name that [repr] leaves as it is between single
    quotes (printable characters other than the quote and the backslash). *)
Definition quote (name : string) : string := "'" +:+ name +:+ "'".

Definition enoent (name : string) : exn :=
  Error FileNotFoundError ("[Errno 2] No such file or directory: " +:+ quote name).
Definition enotdir (name : string) : exn :=
  Error NotADirectoryError ("[Errno 20] Not a directory: " +:+ quote name).
Definition eexist (name : string) : exn :=
  Error FileExistsError ("[Errno 17] File exists: " +:+ quote name).

(** [os.path.exists(name)]: never raises; the empty string names nothing.
    The node is looked up where the name leads lexically (see the
    conventions above for names with [..]); a name that ends with a slash
    or a dot after the name of a regular file is not told apart from the
    file. *)
Definition path_exists (w : world) (name : string) : bool :=
  if String.eqb name EmptyString then false
  else bool_decide (is_Some (stat (fs w) (Path.resolve (cwd w) name))).

Definition os_path_exists (name : string) : py bool :=
  λ w, (Returned (path_exists w name), w).

(** [os.path.abspath(name)]. *)
Definition os_path_abspath (name : string) : py string :=
  λ w, (Returned (Path.abspath (cwd w) name), w).

(** The walk of [os.makedirs] down a path: [made] is the part already
    known to be a directory, [rest] the components still to go.  A missing
    component is created; a component that is a regular file stops the
    walk with the tree as it is by then. *)
Fixpoint makedirs_walk (m : gmap path kind) (made : path) (rest : list string)
    : gmap path kind * bool :=
  match rest with
  | [] => (m, true)
  | c :: rest' =>
      let q := made ++ [c] in
      match stat m q with
      | Some Dir => makedirs_walk m q rest'
      | Some File => (m, false)
      | None => makedirs_walk (<[q := Dir]> m) q rest'
      end
  end.

(** [os.makedirs(name)] (with [exist_ok=False], the default): creates the
    directory and every missing parent; raises [FileExistsError] when the
    path already exists, [NotADirectoryError] when a component of the path
    is a regular file, [FileNotFoundError] for the empty string.  The text
    of the exception quotes the argument, which is the failing path when
    the regular file is the parent of the last component. *)
Definition os_makedirs (name : string) : py unit :=
  emit (CallMakedirs name);;
  λ w,
    if String.eqb name EmptyString then (Raised (enoent name), w)
    else
      let p := Path.resolve (cwd w) name in
      match stat (fs w) p with
      | Some _ => (Raised (eexist name), w)
      | None =>
          match makedirs_walk (fs w) [] p with
          | (m, true) => (Returned (), with_fs m w)
          | (m, false) => (Raised (enotdir name), with_fs m w)
          end
      end.

(** [os.listdir(name)]. *)
Definition os_listdir (name : string) : py (list string) :=
  emit (CallListdir name);;
  λ w,
    if String.eqb name EmptyString then (Raised (enoent name), w)
    else
      let p := Path.resolve (cwd w) name in
      match stat (fs w) p with
      | Some Dir => (Returned (entries (fs w) p), w)
      | Some File => (Raised (enotdir name), w)
      | None => (Raised (enoent name), w)
      end.

(** The call [gdown.download_folder(url=..., output=..., quiet=...,
    remaining_ok=...)]; its return value is not used by the script. *)
Definition call_download_folder (gdown : gdown_module)
    (url output : string) (quiet remaining_ok : bool) : py unit :=
  emit (CallDownloadFolder url output quiet remaining_ok);;
  λ w,
    match download_folder gdown url output quiet remaining_ok (fs w) with
    | (m, None) => (Returned (), with_fs m w)
    | (m, Some e) => (Raised e, with_fs m w)
    end.

(** ** [argparse], as far as the script uses it *)

Record Argument : Type := {
  arg_flag : string;       (* '--url' *)
  arg_dest : string;       (* the attribute of the namespace: 'url' *)
  arg_default : string;
  arg_help : string
}.

Record ArgumentParser : Type := {
  description : string;
  arguments : list Argument
}.

(** [parser.add_argument(flag, type=str, default=..., help=...)]; the
    attribute name is the flag without its leading dashes. *)
Definition add_argument (flag default help : string) (parser : ArgumentParser)
    : ArgumentParser :=
  {| description := description parser;
     arguments := arguments parser ++
       [{| arg_flag := flag;
           arg_dest := String.substring 2 (String.length flag - 2) flag;
           arg_default := default;
           arg_help := help |}] |}.

(** A command line, as the script receives it: option strings, each
    followed by one further word. *)
Abbreviation command_line := (list (string * string)) (only parsing).

Definition options (argv : list (string * string)) : command_line := argv.

(** What an option string can lead to: an option the script declared, or
    the help option that [argparse] adds to every parser. *)
Inductive target : Type :=
  | ToArgument (a : Argument)
  | ToHelp.

(** The option strings the parser knows. *)
Definition option_strings (parser : ArgumentParser) : list (string * target) :=
  [("-h", ToHelp); ("--help", ToHelp)]
  ++ map (λ a, (arg_flag a, ToArgument a)) (arguments parser).

Inductive resolution : Type :=
  | Resolved (t : target)
  | Unknown
  | Ambiguous.

(** How [argparse] reads an option string: an exact match wins; otherwise
    a string that begins with two dashes stands for the one long option it
    is a prefix of ([allow_abbrev] is on by default). *)
Definition resolve_flag (parser : ArgumentParser) (flag : string) : resolution :=
  match List.find (λ ot, String.eqb ot.1 flag) (option_strings parser) with
  | Some ot => Resolved ot.2
  | None =>
      if PyStr.startswith flag "--" then
        match List.filter (λ ot, String.prefix flag ot.1)
                (option_strings parser) with
        | [] => Unknown
        | [ot] => Resolved ot.2
        | _ => Ambiguous
        end
      else Unknown
  end.

(** The namespace before any occurrence is read: every declared
    attribute holds its default. *)
Definition defaults (parser : ArgumentParser) : gmap string string :=
  list_to_map (map (λ a, (arg_dest a, arg_default a)) (arguments parser)).

Inductive parse_outcome : Type :=
  | Parsed (ns : gmap string string)
  | HelpShown
  | Refused.

(** Reading the occurrences left to right: a later occurrence of an option
    replaces an earlier one; the help option ends the reading at once; a
    string that leads to no option is set aside ([extras]) and refused
    when the reading is over. *)
Fixpoint read_occurrences (parser : ArgumentParser)
    (argv : list (string * string)) (ns : gmap string string) (extras : bool)
    : parse_outcome :=
  match argv with
  | [] => if extras then Refused else Parsed ns
  | (flag, value) :: argv' =>
      match resolve_flag parser flag with
      | Resolved (ToArgument a) =>
          read_occurrences parser argv' (<[arg_dest a := value]> ns) extras
      | Resolved ToHelp => HelpShown
      | Unknown => read_occurrences parser argv' ns true
      | Ambiguous => Refused
      end
  end.

(** [parser.parse_args()]: the help option makes [argparse] write the help
    and exit with status 0; a refused command line makes it write a usage
    error and exit with status 2. *)
Definition parse_args (parser : ArgumentParser) (cl : command_line)
    : py (gmap string string) :=
  match read_occurrences parser cl (defaults parser) false with
  | Parsed ns => ret ns
  | HelpShown => emit (Argparse HelpText);; sys_exit 0%Z
  | Refused => emit (Argparse UsageError);; sys_exit 2%Z
  end.

(** Attribute access [args.name]. *)
Definition getattr (ns : gmap string string) (name : string) : py string :=
  match ns !! name with
  | Some v => ret v
  | None => raise (Error AttributeError
              ("'Namespace' object has no attribute " +:+ quote name))
  end.

(** ** The script *)

(** Lines 10-22. *)
Definition check_dependencies : py gdown_module :=
  try_except
    (gdown <~ import_module_gdown;;
     ret gdown)
    isinstance_ImportError
    (λ _,
       logging_error "Required dependency 'gdown' is not installed.";;
       print (PyStr.nl +:+ "Fix: Please install it using the following command:");;
       print ("    pip install gdown" +:+ PyStr.nl);;
       sys_exit 1%Z).

(** Lines 36-38: ensure the target directory exists. *)
Definition ensure_target_directory (output_dir : string) : py unit :=
  present <~ os_path_exists output_dir;;
  if negb present then
    os_makedirs output_dir;;
    logging_info ("Initialized local data directory: " +:+ output_dir)
  else ret ().

(** Lines 46-51: the call of the delegate. *)
Definition folder_sync (gdown : gdown_module) (folder_url output_dir : string)
    : py unit :=
  call_download_folder gdown folder_url output_dir false true.

(** The comprehension of line 59. *)
Definition mat_files_of (names : list string) : list string :=
  List.filter (λ f, PyStr.endswith f ".mat") names.

(** Line 60: the text of the report. *)
Definition available_datasets (mat_files : list string) : string :=
  "Available Datasets (" +:+ PyStr.str_nat (length mat_files) +:+ "): "
    +:+ PyStr.join ", " mat_files.

(** Lines 58-60: audit downloaded files. *)
Definition audit (output_dir : string) : py unit :=
  names <~ os_listdir output_dir;;
  let mat_files := mat_files_of names in
  logging_info (available_datasets mat_files).

(** Lines 46-61: the body of the [try] statement. *)
Definition try_body (gdown : gdown_module) (folder_url output_dir : string)
    : py unit :=
  folder_sync gdown folder_url output_dir;;
  logging_info (PyStr.mul "=" 60);;
  logging_info "Dataset synchronization complete!";;
  abs <~ os_path_abspath output_dir;;
  logging_info ("Local Storage Path: " +:+ abs);;
  audit output_dir;;
  logging_info (PyStr.mul "=" 60).

Definition remediation_hint : string :=
  "Check your internet connection and verify that the GDrive folder is public.".

(** Lines 63-65: the handler of [except Exception as e]. *)
Definition except_handler (e : exn) : py unit :=
  logging_error ("Synchronization failed: " +:+ str_exn e);;
  logging_warning remediation_hint.

(** Lines 43-65: the [try] statement. *)
Definition guarded_sync (gdown : gdown_module) (folder_url output_dir : string)
    : py unit :=
  try_except (try_body gdown folder_url output_dir)
    isinstance_Exception except_handler.

(** Lines 25-65. *)
Definition download_datasets (folder_url output_dir : string) : py unit :=
  gdown <~ check_dependencies;;
  ensure_target_directory output_dir;;
  logging_info "Connecting to Google Drive remote storage...";;
  logging_info ("Remote URL: " +:+ folder_url);;
  guarded_sync gdown folder_url output_dir.

Definition default_url : string :=
  "https://drive.google.com/drive/folders/1TyiQNOuCH7zn0R55EfxM4mUwB05VsoMf?usp=drive_link".

Definition default_output : string := "./dataset".

(** Lines 72-89: the parser [main] builds. *)
Definition parser : ArgumentParser :=
  add_argument "--output" default_output
    "Local directory to save the .mat datasets"
    (add_argument "--url" default_url
       "Google Drive shared folder URL"
       {| description := "Multi-view Learning Suite: Dataset Downloader";
          arguments := [] |}).

(** Lines 68-92. *)
Definition main (cl : command_line) : py unit :=
  args <~ parse_args parser cl;;
  url <~ getattr args "url";;
  output <~ getattr args "output";;
  download_datasets url output.

(** The exit status of the process for the outcome of [main()] at the
    top level (lines 95-96). *)
Definition exit_status (r : outcome unit) : Z :=
  match r with
  | Returned _ => 0
  | Raised (SystemExit code) => code
  | Raised KeyboardInterrupt => 130
  | Raised (Error _ _) => 1
  end%Z.

Definition run (cl : command_line) (w : world) : Z :=
  exit_status (result (main cl) w).

(** * Vocabulary of the statements *)

(** A world with the tree and the trace replaced. *)
Definition evolve (w : world) (m : gmap path kind) (evs : list event) : world :=
  {| import_gdown := import_gdown w; cwd := cwd w; fs := m;
     trace := trace w ++ evs |}.

Definition initialized_message (output_dir : string) : event :=
  Log INFO ("Initialized local data directory: " +:+ output_dir).

(** The ways directory preparation can go, with the world it leaves. *)
Inductive prepared (output_dir : string) (w : world)
    : outcome unit → world → Prop :=
  | prepared_present :
      path_exists w output_dir = true →
      prepared output_dir w (Returned ()) w
  | prepared_created m :
      path_exists w output_dir = false →
      prepared output_dir w (Returned ())
        (evolve w m [CallMakedirs output_dir; initialized_message output_dir])
  | prepared_failed m cls text :
      path_exists w output_dir = false →
      prepared output_dir w (Raised (Error cls text))
        (evolve w m [CallMakedirs output_dir]).

Definition rule : event := Log INFO (PyStr.mul "=" 60).

(** What the [try] block logs before the audit when the delegate returns. *)
Definition completion_banner (wd : path) (output_dir : string) : list event :=
  [rule;
   Log INFO "Dataset synchronization complete!";
   Log INFO ("Local Storage Path: "
             +:+ Path.abspath wd output_dir)].

(** What the handler logs for a caught exception. *)
Definition failure_report (e : exn) : list event :=
  [Log ERROR ("Synchronization failed: " +:+ str_exn e);
   Log WARNING remediation_hint].

(** The ways the [try] statement can go, with the world it leaves. *)
Inductive synced (gdown : gdown_module) (folder_url output_dir : string)
    (w : world) : outcome unit → world → Prop :=
  | synced_delegate_caught m e :
      download_folder gdown folder_url output_dir false true (fs w)
        = (m, Some e) →
      isinstance_Exception e = true →
      synced gdown folder_url output_dir w (Returned ())
        (evolve w m
           (CallDownloadFolder folder_url output_dir false true
              :: failure_report e))
  | synced_delegate_escapes m e :
      download_folder gdown folder_url output_dir false true (fs w)
        = (m, Some e) →
      isinstance_Exception e = false →
      synced gdown folder_url output_dir w (Raised e)
        (evolve w m [CallDownloadFolder folder_url output_dir false true])
  | synced_audited m names :
      download_folder gdown folder_url output_dir false true (fs w)
        = (m, None) →
      result (os_listdir output_dir) (with_fs m w) = Returned names →
      synced gdown folder_url output_dir w (Returned ())
        (evolve w m
           (CallDownloadFolder folder_url output_dir false true
              :: completion_banner (cwd w) output_dir
              ++ [CallListdir output_dir;
                  Log INFO (available_datasets (mat_files_of names));
                  rule]))
  | synced_audit_caught m e :
      download_folder gdown folder_url output_dir false true (fs w)
        = (m, None) →
      result (os_listdir output_dir) (with_fs m w) = Raised e →
      synced gdown folder_url output_dir w (Returned ())
        (evolve w m
           (CallDownloadFolder folder_url output_dir false true
              :: completion_banner (cwd w) output_dir
              ++ CallListdir output_dir :: failure_report e)).

(** What [check_dependencies] writes when the import fails. *)
Definition install_instructions : list event :=
  [Log ERROR "Required dependency 'gdown' is not installed.";
   Print (PyStr.nl +:+ "Fix: Please install it using the following command:");
   Print ("    pip install gdown" +:+ PyStr.nl)].

(** What [download_datasets] logs between preparation and the [try]. *)
Definition connecting (folder_url : string) : list event :=
  [Log INFO "Connecting to Google Drive remote storage...";
   Log INFO ("Remote URL: " +:+ folder_url)].

(** The ways a call of [download_datasets] can go. *)
Inductive ran (folder_url output_dir : string) (w : world)
    : outcome unit → world → Prop :=
  | ran_not_installed e :
      import_gdown w = ImportFails e →
      isinstance_ImportError e = true →
      ran folder_url output_dir w (Raised (SystemExit 1))
        (evolve w (fs w) install_instructions)
  | ran_import_escapes e :
      import_gdown w = ImportFails e →
      isinstance_ImportError e = false →
      ran folder_url output_dir w (Raised e) w
  | ran_preparation_failed gdown e :
      import_gdown w = Imported gdown →
      result (ensure_target_directory output_dir) w = Raised e →
      ran folder_url output_dir w (Raised e)
        (final (ensure_target_directory output_dir) w)
  | ran_synced gdown r w2 :
      import_gdown w = Imported gdown →
      result (ensure_target_directory output_dir) w = Returned () →
      synced gdown folder_url output_dir
        (evolve (final (ensure_target_directory output_dir) w)
           (fs (final (ensure_target_directory output_dir) w))
           (connecting folder_url)) r w2 →
      ran folder_url output_dir w r w2.

(** ** Observations on traces *)

(** The text an event shows to the user, if any. *)
Definition shown_text (ev : event) : string :=
  match ev with
  | Log _ msg => msg
  | Print text => text
  | _ => EmptyString
  end.

(** The events by which the audit step shows: the directory listing and
    the report of the datasets found. *)
Definition is_audit_event (ev : event) : bool :=
  match ev with
  | CallListdir _ => true
  | Log _ msg => PyStr.startswith msg "Available Datasets"
  | _ => false
  end.

Definition is_delegate_call (ev : event) : bool :=
  match ev with
  | CallDownloadFolder _ _ _ _ => true
  | _ => false
  end.

(** The events by which directory creation shows. *)
Definition is_creation_event (ev : event) : bool :=
  match ev with
  | CallMakedirs _ => true
  | Log _ msg => PyStr.startswith msg "Initialized local data directory"
  | _ => false
  end.

(** ** Sample environments *)

Module Sample.

Definition home : path := ["home"; "lab"].

Definition home_tree : gmap path kind :=
  {[ ["home"] := Dir; ["home"; "lab"] := Dir ]}.

(** A delegate that places three files in [./dataset] and returns. *)
Definition gdown_three_files : gdown_module :=
  {| download_folder := λ _ _ _ _ m,
       (<[home ++ ["dataset"; "a.mat"] := File]>
          (<[home ++ ["dataset"; "b.mat"] := File]>
             (<[home ++ ["dataset"; "notes.txt"] := File]> m)), None) |}.

(** A delegate that places one text file and returns. *)
Definition gdown_no_mat : gdown_module :=
  {| download_folder := λ _ _ _ _ m,
       (<[home ++ ["dataset"; "README.txt"] := File]> m, None) |}.

(** A delegate that places files whose names differ from [.mat] by case
    only, and one named exactly [.mat]. *)
Definition gdown_mixed_case : gdown_module :=
  {| download_folder := λ _ _ _ _ m,
       (<[home ++ ["dataset"; "A.MAT"] := File]>
          (<[home ++ ["dataset"; "x.Mat"] := File]>
             (<[home ++ ["dataset"; ".mat"] := File]> m)), None) |}.

(** A delegate that fails on the network after having stored one file. *)
Definition gdown_offline : gdown_module :=
  {| download_folder := λ _ _ _ _ m,
       (<[home ++ ["dataset"; "a.mat"] := File]> m,
        Some (Error ConnectionError "Max retries exceeded")) |}.

(** A delegate interrupted from the keyboard. *)
Definition gdown_interrupted : gdown_module :=
  {| download_folder := λ _ _ _ _ m, (m, Some KeyboardInterrupt) |}.

(** A delegate that removes the output directory's node and returns. *)
Definition gdown_wipes : gdown_module :=
  {| download_folder := λ _ _ _ _ m,
       (delete (home ++ ["dataset"]) m, None) |}.

Definition fresh (gdown : gdown_module) : world :=
  {| import_gdown := Imported gdown; cwd := home; fs := home_tree;
     trace := [] |}.

(** [./dataset] is there already, with one file in it. *)
Definition populated (gdown : gdown_module) : world :=
  {| import_gdown := Imported gdown; cwd := home;
     fs := <[home ++ ["dataset"; "old.mat"] := File]>
             (<[home ++ ["dataset"] := Dir]> home_tree);
     trace := [] |}.

(** A regular file named [data] sits where a directory is wanted. *)
Definition blocked (gdown : gdown_module) : world :=
  {| import_gdown := Imported gdown; cwd := home;
     fs := <[home ++ ["data"] := File]> home_tree;
     trace := [] |}.

(** [./dataset] holds [a.mat], [b.mat] and [notes.txt]. *)
Definition stocked (gdown : gdown_module) : world :=
  {| import_gdown := Imported gdown; cwd := home;
     fs := <[home ++ ["dataset"; "a.mat"] := File]>
             (<[home ++ ["dataset"; "b.mat"] := File]>
                (<[home ++ ["dataset"; "notes.txt"] := File]>
                   (<[home ++ ["dataset"] := Dir]> home_tree)));
     trace := [] |}.

Definition without_gdown : world :=
  {| import_gdown :=
       ImportFails (Error ModuleNotFoundError "No module named 'gdown'");
     cwd := home; fs := home_tree; trace := [] |}.

End Sample.

(** [names_option f flag]: the option string [f], as typed, is read as the
    declared option [flag]. *)
Definition names_option (f flag : string) : bool :=
  match resolve_flag parser f with
  | Resolved (ToArgument a) => String.eqb (arg_flag a) flag
  | _ => false
  end.




(** Names without a [..] component. *)
Definition dotdot_free (name : string) : Prop :=
  ¬ In ".." (PyStr.split "/" name).

(** Names whose last component is a proper name: no trailing slash, no
    trailing [.] or [..]. *)
Definition names_entry (name : string) : Prop :=
  ∃ c, last (PyStr.split "/" name) = Some c
       ∧ c ≠ EmptyString ∧ c ≠ "." ∧ c ≠ "..".

(** The calls the script makes to the outside: [os.makedirs],
    [os.listdir] and the delegate. *)
Definition is_external_call (ev : event) : bool :=
  match ev with
  | CallMakedirs _ | CallListdir _ | CallDownloadFolder _ _ _ _ => true
  | _ => false
  end.

(** ** Further sample environments *)

Module Scenario.

(** A delegate that finds nothing to download and returns. *)
Definition gdown_idle : gdown_module :=
  {| download_folder := λ _ _ _ _ m, (m, None) |}.

(** [import gdown] fails inside the package, with something other than an
    [ImportError]. *)
Definition broken_gdown : world :=
  {| import_gdown := ImportFails (Error RuntimeError "bad installation");
     cwd := Sample.home; fs := Sample.home_tree; trace := [] |}.

End Scenario.

(** * Properties *)

(** ** Strings *)

Section StringFacts.

Lemma length_append (s t : string) :
  String.length (s +:+ t) = String.length s + String.length t.
Proof. induction s as [|c s IH]; simpl; [done | by rewrite IH]. Qed.

Lemma substring_all (s : string) : String.substring 0 (String.length s) s = s.
Proof. induction s as [|c s IH]; simpl; [done | by rewrite IH]. Qed.

Lemma substring_skip (p t : string) :
  String.substring (String.length p) (String.length t) (p +:+ t) = t.
Proof. induction p as [|c p IH]; simpl; [apply substring_all | exact IH]. Qed.

Lemma substring_tail (i : nat) :
  ∀ s, i ≤ String.length s →
    ∃ p, s = p +:+ String.substring i (String.length s - i) s
         ∧ String.length p = i.
Proof.
  induction i as [|i IH]; intros s Hi.
  - exists EmptyString. rewrite Nat.sub_0_r, substring_all. done.
  - destruct s as [|c s]; simpl in Hi; [lia|].
    destruct (IH s) as (p & Hp & Hlen); [lia|].
    exists (String c p). split; [|simpl; by rewrite Hlen].
    change (String c s = String c (p +:+ String.substring i (String.length s - i) s)).
    by rewrite <- Hp.
Qed.

(** A suffix is determined by its length. *)
Lemma append_suffix_inj (p q s t : string) :
  String.length s = String.length t → p +:+ s = q +:+ t → s = t.
Proof.
  revert q. induction p as [|c p IH]; intros q Hlen Heq.
  - destruct q as [|d q]; [done|].
    apply (f_equal String.length) in Heq.
    rewrite !length_append in Heq. simpl in Heq. lia.
  - destruct q as [|d q]; simpl in Heq.
    + apply (f_equal String.length) in Heq. simpl in Heq.
      rewrite !length_append in Heq. simpl in Heq. lia.
    + injection Heq as _ Heq. by apply (IH q).
Qed.

(** [endswith] decides "is of the form [stem ++ suffix]". *)
Lemma endswith_spec (s suffix : string) :
  PyStr.endswith s suffix = true ↔ ∃ stem, s = stem +:+ suffix.
Proof.
  unfold PyStr.endswith. rewrite andb_true_iff, bool_decide_eq_true, String.eqb_eq.
  split.
  - intros [Hle Hsub].
    destruct (substring_tail (String.length s - String.length suffix) s)
      as (p & Hp & _); [lia|].
    replace (String.length s - (String.length s - String.length suffix))
      with (String.length suffix) in Hp by lia.
    rewrite Hsub in Hp. by exists p.
  - intros [stem ->]. rewrite length_append. split; [lia|].
    replace (String.length stem + String.length suffix - String.length suffix)
      with (String.length stem) by lia.
    apply substring_skip.
Qed.

Lemma endswith_false (s suffix : string) :
  PyStr.endswith s suffix = false ↔ ¬ ∃ stem, s = stem +:+ suffix.
Proof. rewrite <- endswith_spec. by destruct (PyStr.endswith s suffix). Qed.

(** The comprehension keeps exactly the names with the suffix. *)
Lemma in_mat_files_of (names : list string) (f : string) :
  In f (mat_files_of names) ↔ In f names ∧ ∃ stem, f = stem +:+ ".mat".
Proof. unfold mat_files_of. by rewrite filter_In, endswith_spec. Qed.

Lemma NoDup_mat_files_of (names : list string) :
  List.NoDup names → List.NoDup (mat_files_of names).
Proof. apply List.NoDup_filter. Qed.

(** The comprehension keeps the order of the listing. *)
Lemma sublist_mat_files_of (names : list string) :
  sublist (mat_files_of names) names.
Proof.
  unfold mat_files_of. induction names as [|f names IH]; simpl.
  - constructor.
  - destruct (PyStr.endswith f ".mat"); by constructor.
Qed.

End StringFacts.

(** ** The directory tree *)

Section TreeFacts.

Implicit Types (m : gmap path kind) (p q : path) (c : string).

Lemma strip_spec p q r : Path.strip p q = Some r ↔ q = p ++ r.
Proof.
  revert q. induction p as [|a p IH]; intros [|b q]; simpl.
  - split; congruence.
  - split; congruence.
  - split; [done | discriminate].
  - destruct (String.eqb_spec a b) as [->|Hne].
    + rewrite IH. split; congruence.
    + split; [done | congruence].
Qed.

Lemma entry_name_spec p q c : Path.entry_name p q = Some c ↔ q = p ++ [c].
Proof.
  unfold Path.entry_name. destruct (Path.strip p q) as [r|] eqn:Hs.
  - apply strip_spec in Hs. subst q.
    destruct r as [|d [|e r]]; split; intros H;
      try apply app_inv_head in H; congruence.
  - split; [done|]. intros ->.
    assert (Path.strip p (p ++ [c]) = Some [c]) by by apply strip_spec.
    congruence.
Qed.

(** The listing of a directory names exactly its direct entries. *)
Lemma elem_of_entries m p c : c ∈ entries m p ↔ is_Some (m !! (p ++ [c])).
Proof.
  unfold entries. rewrite list_elem_of_omap. split.
  - intros (q & Hq & Hn). apply entry_name_spec in Hn. subst q.
    apply list_elem_of_fmap in Hq as ([q k] & -> & Hq).
    apply elem_of_map_to_list in Hq. by exists k.
  - intros [k Hk]. exists (p ++ [c]). split; [|by apply entry_name_spec].
    apply list_elem_of_fmap. exists (p ++ [c], k).
    split; [done | by apply elem_of_map_to_list].
Qed.

Lemma NoDup_omap_inj {A B} (f : A → option B) (l : list A) :
  NoDup l →
  (∀ x y z, f x = Some z → f y = Some z → x = y) →
  NoDup (omap f l).
Proof.
  intros Hl Hinj. induction Hl as [|x l Hx Hl IH]; simpl; [constructor|].
  destruct (f x) as [z|] eqn:Hfx; [|done].
  constructor; [|done].
  rewrite list_elem_of_omap. intros (y & Hy & Hfy).
  by rewrite (Hinj x y z Hfx Hfy) in Hx.
Qed.

(** No name is listed twice. *)
Lemma NoDup_entries m p : NoDup (entries m p).
Proof.
  apply NoDup_omap_inj; [apply NoDup_fst_map_to_list|].
  intros x y z Hx Hy. apply entry_name_spec in Hx, Hy. congruence.
Qed.

End TreeFacts.

(** ** [os.makedirs] *)

Section MakedirsFacts.

Implicit Types (m : gmap path kind) (p q made : path) (rest : list string).

Lemma stat_snoc m made c : stat m (made ++ [c]) = m !! (made ++ [c]).
Proof. unfold stat. by destruct made. Qed.


(** Whatever the walk does, the nodes that were there stay as they were. *)
Lemma makedirs_walk_preserves rest :
  ∀ m made q k,
    m !! q = Some k → (makedirs_walk m made rest).1 !! q = Some k.
Proof.
  induction rest as [|c rest IH]; intros m made q k Hq; simpl; [done|].
  rewrite stat_snoc. destruct (m !! (made ++ [c])) as [[]|] eqn:Hc.
  - done.
  - by apply IH.
  - apply IH. rewrite lookup_insert_ne; [done|]. congruence.
Qed.



End MakedirsFacts.

(** ** Running the script *)

Ltac unfold_py :=
  unfold os_makedirs, os_listdir, os_path_exists, os_path_abspath,
    call_download_folder, import_module_gdown, logging_info, logging_error,
    logging_warning, print, sys_exit, try_except, bind, ret, raise, emit in *.

Ltac world_simpl :=
  cbn [import_gdown with_event with_fs fs cwd trace fst snd negb
       isinstance_Exception isinstance_ImportError result final] in *.

Lemma evolve_nothing (w : world) : evolve w (fs w) [] = w.
Proof. destruct w. unfold evolve. simpl. by rewrite app_nil_r. Qed.

Lemma emitted_evolve {A} (c : py A) (w : world) m evs :
  final c w = evolve w m evs → emitted c w = evs.
Proof. unfold emitted. intros ->. simpl. apply drop_app_length. Qed.

Ltac evolve_eq :=
  unfold evolve, with_event, with_fs; simpl;
  repeat rewrite <- app_assoc; simpl; reflexivity.

Lemma ensure_target_directory_prepared (output_dir : string) (w : world) :
  prepared output_dir w
    (result (ensure_target_directory output_dir) w)
    (final (ensure_target_directory output_dir) w).
Proof.
  unfold ensure_target_directory, result, final. unfold_py. world_simpl.
  destruct (path_exists w output_dir) eqn:Hex; world_simpl.
  { by constructor. }
  destruct (String.eqb output_dir EmptyString); world_simpl.
  { replace (with_event _ w) with (evolve w (fs w) [CallMakedirs output_dir])
      by evolve_eq.
    by constructor. }
  destruct (stat _ _); world_simpl.
  { replace (with_event _ w) with (evolve w (fs w) [CallMakedirs output_dir])
      by evolve_eq.
    by constructor. }
  destruct (makedirs_walk _ _ _) as [m []]; world_simpl.
  - replace (with_event _ (with_fs _ _)) with
      (evolve w m [CallMakedirs output_dir; initialized_message output_dir])
      by evolve_eq.
    by constructor.
  - replace (with_fs _ _) with (evolve w m [CallMakedirs output_dir])
      by evolve_eq.
    by constructor.
Qed.

Lemma guarded_sync_synced gdown folder_url output_dir (w : world) :
  synced gdown folder_url output_dir w
    (result (guarded_sync gdown folder_url output_dir) w)
    (final (guarded_sync gdown folder_url output_dir) w).
Proof.
  unfold guarded_sync, try_body, folder_sync, audit, except_handler,
    result, final.
  unfold_py. world_simpl.
  destruct (download_folder _ _ _ _ _ _) as [m [e|]] eqn:Hd; world_simpl.
  { destruct (isinstance_Exception e) eqn:He; world_simpl.
    - replace (with_event _ _) with
        (evolve w m (CallDownloadFolder folder_url output_dir false true
                       :: failure_report e)) by evolve_eq.
      by eapply synced_delegate_caught.
    - replace (with_fs _ _) with
        (evolve w m [CallDownloadFolder folder_url output_dir false true])
        by evolve_eq.
      by eapply synced_delegate_escapes. }
  destruct (String.eqb output_dir EmptyString) eqn:Hempty; world_simpl.
  { replace (with_event _ _) with
      (evolve w m (CallDownloadFolder folder_url output_dir false true
                     :: completion_banner (cwd w) output_dir
                     ++ CallListdir output_dir :: failure_report (enoent output_dir)))
      by evolve_eq.
    eapply synced_audit_caught; [done|].
    unfold result. unfold_py. world_simpl. by rewrite Hempty. }
  destruct (stat m (Path.resolve (cwd w) output_dir)) as [[]|] eqn:Hstat;
    world_simpl.
  - replace (with_event _ _) with
      (evolve w m (CallDownloadFolder folder_url output_dir false true
                     :: completion_banner (cwd w) output_dir
                     ++ CallListdir output_dir :: failure_report (enotdir output_dir)))
      by evolve_eq.
    eapply synced_audit_caught; [done|].
    unfold result. unfold_py. world_simpl. by rewrite Hempty, Hstat.
  - replace (with_event _ _) with
      (evolve w m (CallDownloadFolder folder_url output_dir false true
         :: completion_banner (cwd w) output_dir
         ++ [CallListdir output_dir;
             Log INFO (available_datasets
                         (mat_files_of (entries m (Path.resolve (cwd w) output_dir))));
             rule])) by evolve_eq.
    eapply synced_audited; [done|].
    unfold result. unfold_py. world_simpl. by rewrite Hempty, Hstat.
  - replace (with_event _ _) with
      (evolve w m (CallDownloadFolder folder_url output_dir false true
                     :: completion_banner (cwd w) output_dir
                     ++ CallListdir output_dir :: failure_report (enoent output_dir)))
      by evolve_eq.
    eapply synced_audit_caught; [done|].
    unfold result. unfold_py. world_simpl. by rewrite Hempty, Hstat.
Qed.

Lemma fs_evolve (w : world) m evs : fs (evolve w m evs) = m.
Proof. done. Qed.

Lemma cwd_evolve (w : world) m evs : cwd (evolve w m evs) = cwd w.
Proof. done. Qed.

Lemma with_fs_evolve (w : world) m evs m' :
  with_fs m' (evolve w m evs) = evolve w m' evs.
Proof. done. Qed.

Lemma evolve_evolve (w : world) m evs m' evs' :
  evolve (evolve w m evs) m' evs' = evolve w m' (evs ++ evs').
Proof. unfold evolve. simpl. by rewrite app_assoc. Qed.

Lemma check_dependencies_imported (w : world) gdown :
  import_gdown w = Imported gdown →
  check_dependencies w = (Returned gdown, w).
Proof. intros Hi. unfold check_dependencies. unfold_py. by rewrite Hi. Qed.

Lemma check_dependencies_not_installed (w : world) e :
  import_gdown w = ImportFails e →
  isinstance_ImportError e = true →
  check_dependencies w
  = (Raised (SystemExit 1), evolve w (fs w) install_instructions).
Proof.
  intros Hi He. unfold check_dependencies. unfold_py. rewrite Hi, He.
  f_equal. evolve_eq.
Qed.

Lemma check_dependencies_escapes (w : world) e :
  import_gdown w = ImportFails e →
  isinstance_ImportError e = false →
  check_dependencies w = (Raised e, w).
Proof. intros Hi He. unfold check_dependencies. unfold_py. by rewrite Hi, He. Qed.

Lemma download_datasets_imported folder_url output_dir (w : world) gdown :
  import_gdown w = Imported gdown →
  download_datasets folder_url output_dir w
  = match ensure_target_directory output_dir w with
    | (Returned _, w1) =>
        guarded_sync gdown folder_url output_dir
          (evolve w1 (fs w1) (connecting folder_url))
    | (Raised e, w1) => (Raised e, w1)
    end.
Proof.
  intros Hi. unfold download_datasets, bind at 1.
  rewrite (check_dependencies_imported w gdown Hi).
  unfold bind at 1. destruct (ensure_target_directory output_dir w) as [[[]|e] w1];
    [|done].
  unfold guarded_sync. unfold logging_info, emit, bind.
  f_equal. evolve_eq.
Qed.

Lemma download_datasets_ran folder_url output_dir (w : world) :
  ran folder_url output_dir w
    (result (download_datasets folder_url output_dir) w)
    (final (download_datasets folder_url output_dir) w).
Proof.
  destruct (import_gdown w) as [gdown|e] eqn:Hi.
  - unfold result, final. rewrite (download_datasets_imported _ _ _ _ Hi).
    destruct (ensure_target_directory output_dir w) as [[[]|e] w1] eqn:Hp.
    + eapply ran_synced; [done | unfold result; by rewrite Hp |].
      unfold final at 1 2. rewrite Hp. apply guarded_sync_synced.
    + replace w1 with (final (ensure_target_directory output_dir) w)
        by (unfold final; by rewrite Hp).
      eapply ran_preparation_failed; [done | unfold result; by rewrite Hp].
  - unfold result, final, download_datasets, bind.
    destruct (isinstance_ImportError e) eqn:He.
    + rewrite (check_dependencies_not_installed w e Hi He). simpl.
      by eapply ran_not_installed.
    + rewrite (check_dependencies_escapes w e Hi He). simpl.
      by eapply ran_import_escapes.
Qed.

(** ** Dependency check *)

(** C3. Whenever [import gdown] fails with an [ImportError],
    [check_dependencies] logs that the dependency 'gdown' is missing,
    prints the install command 'pip install gdown', and raises
    [SystemExit(1)], so that the process ends with a non-zero status and
    nothing else has happened; when the import succeeds it returns the
    module and leaves the world as it was. *)
Theorem check_dependencies_exits_or_returns_module (w : world) :
  (∀ e, import_gdown w = ImportFails e →
        isinstance_ImportError e = true →
        result check_dependencies w = Raised (SystemExit 1)
        ∧ emitted check_dependencies w = install_instructions
        ∧ fs (final check_dependencies w) = fs w
        ∧ (∃ ev, In ev (emitted check_dependencies w)
                 ∧ PyStr.contains "gdown" (shown_text ev) = true)
        ∧ (∃ ev, In ev (emitted check_dependencies w)
                 ∧ PyStr.contains "pip install gdown" (shown_text ev) = true)
        ∧ ∀ folder_url output_dir,
            exit_status (result (download_datasets folder_url output_dir) w)
            = 1%Z)
  ∧ (∀ gdown, import_gdown w = Imported gdown →
              check_dependencies w = (Returned gdown, w)).
Proof.
  split.
  - intros e Hi He.
    pose proof (check_dependencies_not_installed w e Hi He) as Hrun.
    assert (emitted check_dependencies w = install_instructions) as Hem.
    { eapply emitted_evolve. unfold final. by rewrite Hrun. }
    unfold result, final. rewrite Hem, Hrun. simpl.
    repeat split.
    + exists (Log ERROR "Required dependency 'gdown' is not installed.").
      split; [by left | by vm_compute].
    + exists (Print ("    pip install gdown" +:+ PyStr.nl)).
      split; [right; right; by left | by vm_compute].
    + intros folder_url output_dir. unfold download_datasets, bind.
      by rewrite Hrun.
  - apply check_dependencies_imported.
Qed.

Lemma check_dependencies_exits_or_returns_module_witness :
  result check_dependencies Sample.without_gdown = Raised (SystemExit 1)
  ∧ check_dependencies (Sample.fresh Sample.gdown_offline)
    = (Returned Sample.gdown_offline, Sample.fresh Sample.gdown_offline).
Proof.
  split.
  - destruct (check_dependencies_exits_or_returns_module Sample.without_gdown)
      as [Hfail _].
    destruct (Hfail (Error ModuleNotFoundError "No module named 'gdown'"))
      as [Hr _]; [reflexivity | reflexivity | exact Hr].
  - destruct (check_dependencies_exits_or_returns_module
                (Sample.fresh Sample.gdown_offline)) as [_ Hok].
    apply Hok. reflexivity.
Defined.

(** ** Audit *)

Lemma os_listdir_returned (name : string) (w : world) (names : list string) :
  result (os_listdir name) w = Returned names →
  stat (fs w) (Path.resolve (cwd w) name) = Some Dir
  ∧ names = entries (fs w) (Path.resolve (cwd w) name).
Proof.
  unfold result. unfold_py. world_simpl.
  destruct (String.eqb name EmptyString); [done|].
  destruct (stat _ _) as [[]|]; simpl; [done| |done].
  by intros [= <-].
Qed.

(** The outcome of a listing depends on the tree and the working
    directory only. *)
Lemma os_listdir_result_ext (name : string) (w w' : world) :
  fs w = fs w' → cwd w = cwd w' →
  result (os_listdir name) w = result (os_listdir name) w'.
Proof.
  intros Hfs Hcwd. unfold result. unfold_py. world_simpl.
  rewrite Hfs, Hcwd. destruct (String.eqb name EmptyString); [done|].
  by destruct (stat _ _) as [[]|].
Qed.

Lemma os_listdir_raises_error (name : string) (w : world) e :
  result (os_listdir name) w = Raised e → isinstance_Exception e = true.
Proof.
  unfold result. unfold_py. world_simpl.
  destruct (String.eqb name EmptyString); [by intros [= <-]|].
  destruct (stat _ _) as [[]|]; simpl; [| done |]; by intros [= <-].
Qed.

Lemma audit_run (output_dir : string) (w : world) (names : list string) :
  result (os_listdir output_dir) w = Returned names →
  audit output_dir w
  = (Returned (),
     evolve w (fs w)
       [CallListdir output_dir;
        Log INFO (available_datasets (mat_files_of names))]).
Proof.
  intros Hl. destruct (os_listdir_returned _ _ _ Hl) as [Hstat ->].
  revert Hl. unfold audit, result. unfold_py. world_simpl.
  destruct (String.eqb output_dir EmptyString); [done|].
  rewrite Hstat. intros _. f_equal. evolve_eq.
Qed.

(** C4. For every content of the output directory at the time the audit
    runs (the listing [names] that [os.listdir] returns), the audit returns
    normally and logs one report, "Available Datasets (n): ..." where the
    names shown are exactly the directory entries that end with '.mat', in
    listing order and each once, and n is their number: any duplicate-free
    enumeration of the entries ending with '.mat' has n elements.  With no
    such entry the report shows 0 and an empty list of names. *)
Theorem audit_reports_mat_entries (output_dir : string) (w : world)
    (names : list string) :
  result (os_listdir output_dir) w = Returned names →
  result (audit output_dir) w = Returned ()
  ∧ emitted (audit output_dir) w
    = [CallListdir output_dir;
       Log INFO ("Available Datasets ("
                 +:+ PyStr.str_nat (length (mat_files_of names)) +:+ "): "
                 +:+ PyStr.join ", " (mat_files_of names))]
  ∧ (∀ f, In f names
          ↔ is_Some (fs w !! (Path.resolve (cwd w) output_dir ++ [f])))
  ∧ (∀ f, In f (mat_files_of names)
          ↔ In f names ∧ ∃ stem, f = stem +:+ ".mat")
  ∧ List.NoDup (mat_files_of names)
  ∧ sublist (mat_files_of names) names
  ∧ (∀ l, List.NoDup l →
          (∀ f, In f l ↔ In f names ∧ ∃ stem, f = stem +:+ ".mat") →
          length l = length (mat_files_of names))
  ∧ ((∀ f, In f names → ¬ ∃ stem, f = stem +:+ ".mat") →
     emitted (audit output_dir) w
     = [CallListdir output_dir; Log INFO "Available Datasets (0): "]).
Proof.
  intros Hl. pose proof (audit_run _ _ _ Hl) as Hrun.
  assert (emitted (audit output_dir) w
          = [CallListdir output_dir;
             Log INFO (available_datasets (mat_files_of names))]) as Hem.
  { eapply emitted_evolve. unfold final. by rewrite Hrun. }
  destruct (os_listdir_returned _ _ _ Hl) as [Hstat Hnames].
  assert (List.NoDup names) as Hnd
    by (rewrite Hnames; apply NoDup_ListNoDup, NoDup_entries).
  split; [unfold result; by rewrite Hrun|].
  split; [exact Hem|].
  split. { intros f. by rewrite Hnames, <- list_elem_of_In, elem_of_entries. }
  split; [apply in_mat_files_of|].
  split; [by apply NoDup_mat_files_of|].
  split; [apply sublist_mat_files_of|].
  split.
  - intros l Hndl Hl'. apply Permutation_length.
    apply NoDup_Permutation;
      [by apply NoDup_ListNoDup
      |by apply NoDup_ListNoDup, NoDup_mat_files_of|].
    intros f. by rewrite !list_elem_of_In, Hl', in_mat_files_of.
  - intros Hnone. rewrite Hem.
    assert (mat_files_of names = []) as ->; [|done].
    destruct (mat_files_of names) as [|f l] eqn:Hf; [done|].
    assert (In f (mat_files_of names)) as Hin by (rewrite Hf; by left).
    apply in_mat_files_of in Hin as [Hin Hsuf]. by destruct (Hnone f).
Qed.

Lemma audit_reports_mat_entries_witness :
  result (os_listdir "./dataset") (Sample.stocked Sample.gdown_offline)
  = Returned ["notes.txt"; "b.mat"; "a.mat"]
  ∧ emitted (audit "./dataset") (Sample.stocked Sample.gdown_offline)
    = [CallListdir "./dataset"; Log INFO "Available Datasets (2): b.mat, a.mat"].
Proof.
  assert (result (os_listdir "./dataset") (Sample.stocked Sample.gdown_offline)
          = Returned ["notes.txt"; "b.mat"; "a.mat"]) as Hl
    by (vm_compute; reflexivity).
  split; [exact Hl|].
  destruct (audit_reports_mat_entries "./dataset"
              (Sample.stocked Sample.gdown_offline)
              ["notes.txt"; "b.mat"; "a.mat"] Hl) as (_ & Hem & _).
  exact Hem.
Defined.

(** The example of the specification, as a whole run: the delegate places
    [a.mat], [b.mat] and [notes.txt]; the report counts two datasets and
    names the two (in the order of the listing). *)
Example run_with_three_files :
  run (options []) (Sample.fresh Sample.gdown_three_files) = 0%Z
  ∧ In (Log INFO "Available Datasets (2): b.mat, a.mat")
       (emitted (main (options [])) (Sample.fresh Sample.gdown_three_files)).
Proof. split; [by vm_compute|]. vm_compute. tauto. Qed.

(** A run after which no entry ends with '.mat'. *)
Example run_with_no_mat_file :
  run (options []) (Sample.fresh Sample.gdown_no_mat) = 0%Z
  ∧ In (Log INFO "Available Datasets (0): ")
       (emitted (main (options [])) (Sample.fresh Sample.gdown_no_mat)).
Proof. split; [by vm_compute|]. vm_compute. tauto. Qed.

Lemma count_occ_mat_files_of (names : list string) (f : string) :
  count_occ string_dec (mat_files_of names) f
  = if PyStr.endswith f ".mat" then count_occ string_dec names f else 0.
Proof.
  unfold mat_files_of. induction names as [|g names IH]; simpl.
  - by destruct (PyStr.endswith f ".mat").
  - destruct (PyStr.endswith g ".mat") eqn:Hg; simpl;
      destruct (string_dec g f) as [->|Hne]; rewrite IH; try done.
    + by rewrite Hg.
    + by rewrite Hg.
Qed.

(** C9. The filter of the audit is an exact, case-sensitive suffix match
    against '.mat': a name is kept (listed, and counted as often as it
    occurs in the listing) if and only if it is of the form stem + '.mat';
    a name whose last four characters differ from '.mat' in any way, such
    as 'A.MAT' or 'x.Mat', is dropped, and the name '.mat' itself is
    kept. *)
Theorem mat_filter_is_exact_suffix_match :
  (∀ f, PyStr.endswith f ".mat" = true ↔ ∃ stem, f = stem +:+ ".mat")
  ∧ (∀ names f, In f (mat_files_of names)
                ↔ In f names ∧ ∃ stem, f = stem +:+ ".mat")
  ∧ (∀ names f, count_occ string_dec (mat_files_of names) f
                = if PyStr.endswith f ".mat"
                  then count_occ string_dec names f else 0)
  ∧ (∀ stem ext, String.length ext = 4 → ext ≠ ".mat" →
                 PyStr.endswith (stem +:+ ext) ".mat" = false)
  ∧ mat_files_of ["A.MAT"; "x.Mat"; ".mat"] = [".mat"]
  ∧ In (Log INFO "Available Datasets (1): .mat")
       (emitted (main (options [])) (Sample.fresh Sample.gdown_mixed_case)).
Proof.
  split; [intros f; apply endswith_spec|].
  split; [apply in_mat_files_of|].
  split; [apply count_occ_mat_files_of|].
  split.
  { intros stem ext Hlen Hne. apply endswith_false. intros [stem' Heq].
    apply Hne. by apply (append_suffix_inj stem stem'). }
  split; [by vm_compute|].
  vm_compute. tauto.
Qed.

Lemma mat_filter_is_exact_suffix_match_witness :
  PyStr.endswith "A.MAT" ".mat" = false
  ∧ PyStr.endswith "x.Mat" ".mat" = false
  ∧ In ".mat" (mat_files_of ["A.MAT"; "x.Mat"; ".mat"]).
Proof.
  destruct mat_filter_is_exact_suffix_match as (_ & Hin & _ & Hcase & _).
  split; [|split].
  - apply (Hcase "A" ".MAT"); [reflexivity | discriminate].
  - apply (Hcase "x" ".Mat"); [reflexivity | discriminate].
  - apply Hin. split; [simpl; tauto | by exists EmptyString].
Defined.

Lemma ensure_target_directory_returned (output_dir : string) (w : world) :
  result (ensure_target_directory output_dir) w = Returned () →
  (path_exists w output_dir = true
   ∧ final (ensure_target_directory output_dir) w = w)
  ∨ (path_exists w output_dir = false
     ∧ ∃ m, final (ensure_target_directory output_dir) w
            = evolve w m [CallMakedirs output_dir;
                          initialized_message output_dir]).
Proof.
  intros Hr. pose proof (ensure_target_directory_prepared output_dir w) as Hp.
  rewrite Hr in Hp.
  remember (final (ensure_target_directory output_dir) w) as w1 eqn:Hw1.
  remember (Returned ()) as r1 eqn:Hr1.
  destruct Hp as [Hex|m Hex|m cls text Hex]; [left | right | discriminate];
    (split; [done|]); [done | by exists m].
Qed.

Lemma ensure_target_directory_raised (output_dir : string) (w : world) e :
  result (ensure_target_directory output_dir) w = Raised e →
  path_exists w output_dir = false
  ∧ ∃ m cls text,
      e = Error cls text
      ∧ final (ensure_target_directory output_dir) w
        = evolve w m [CallMakedirs output_dir].
Proof.
  intros Hr. pose proof (ensure_target_directory_prepared output_dir w) as Hp.
  rewrite Hr in Hp.
  remember (final (ensure_target_directory output_dir) w) as w1 eqn:Hw1.
  remember (Raised e) as r1 eqn:Hr1.
  destruct Hp as [Hex|m Hex|m cls text Hex]; [discriminate..|].
  injection Hr1 as <-. split; [done|]. by exists m, cls, text.
Qed.

(** Case analysis on a run of [download_datasets]: the outcome of the
    import, of the preparation, of the delegate and of the listing, with
    the events of the run as an explicit list in each case. *)
Ltac run_cases url out w :=
  let Hran := fresh "Hran" in
  let r := fresh "r" in
  let w' := fresh "w'" in
  pose proof (download_datasets_ran url out w) as Hran;
  remember (result (download_datasets url out) w) as r eqn:Hres;
  remember (final (download_datasets url out) w) as w' eqn:Hfin;
  destruct Hran as
    [ exc Himp Hcls
    | exc Himp Hcls
    | gd exc Himp Hens
    | gd r w2 Himp Hens Hsync ];
  [ | rewrite <- (evolve_nothing w) in Hfin at 1
    | destruct (ensure_target_directory_raised out w exc Hens)
        as (Habsent & tree1 & ecls & etext & -> & Hw1);
      rewrite Hw1 in *
    | destruct (ensure_target_directory_returned out w Hens)
        as [[Hpresent Hw1]|(Habsent & tree1 & Hw1)];
      rewrite Hw1 in *;
      destruct Hsync as
        [ tree2 exc Hdl Hcaught
        | tree2 exc Hdl Hescapes
        | tree2 listing Hdl Hlist
        | tree2 exc Hdl Hlist ] ];
  rewrite ?evolve_evolve in Hfin;
  symmetry in Hfin; apply emitted_evolve in Hfin;
  rewrite ?with_fs_evolve, ?fs_evolve, ?cwd_evolve in *;
  world_simpl.

(** ** Folder synchronisation *)

Lemma folder_sync_run gdown folder_url output_dir (w : world) :
  final (folder_sync gdown folder_url output_dir) w
  = evolve w (download_folder gdown folder_url output_dir false true (fs w)).1
      [CallDownloadFolder folder_url output_dir false true].
Proof.
  unfold folder_sync, final. unfold_py. world_simpl.
  destruct (download_folder _ _ _ _ _ _) as [m [e|]]; simpl; evolve_eq.
Qed.

(** C6. The folder-sync step calls [gdown.download_folder] exactly once,
    with the configured URL, the configured destination and
    [remaining_ok=True] (and [quiet=False]), and the tree it leaves is the
    one the delegate produced for these arguments.  In a run of
    [download_datasets] that reaches the step (the import succeeded and the
    preparation returned) this is the only call of the delegate; in any run
    the delegate is called at most once and never with other arguments. *)
Theorem folder_sync_calls_delegate_once (gdown : gdown_module)
    (folder_url output_dir : string) (w : world) :
  (∀ w0, emitted (folder_sync gdown folder_url output_dir) w0
         = [CallDownloadFolder folder_url output_dir false true]
         ∧ fs (final (folder_sync gdown folder_url output_dir) w0)
           = (download_folder gdown folder_url output_dir false true (fs w0)).1)
  ∧ (import_gdown w = Imported gdown →
     result (ensure_target_directory output_dir) w = Returned () →
     List.filter is_delegate_call
       (emitted (download_datasets folder_url output_dir) w)
     = [CallDownloadFolder folder_url output_dir false true])
  ∧ (∀ ev, In ev (emitted (download_datasets folder_url output_dir) w) →
           is_delegate_call ev = true →
           ev = CallDownloadFolder folder_url output_dir false true)
  ∧ length (List.filter is_delegate_call
              (emitted (download_datasets folder_url output_dir) w)) ≤ 1.
Proof.
  split.
  { intros w0. pose proof (folder_sync_run gdown folder_url output_dir w0) as Hf.
    split; [by eapply emitted_evolve | by rewrite Hf]. }
  split; [intros Hi Hp | split].
  all: run_cases folder_url output_dir w; rewrite Hfin; clear Hfin Hres.
  all: try congruence.
  all: try (simpl; lia).
  all: try reflexivity.
  all: simpl; intros ev Hin Hcall;
    repeat (destruct Hin as [<-|Hin]; try discriminate Hcall; try reflexivity);
    by destruct Hin.
Qed.

Lemma folder_sync_calls_delegate_once_witness :
  List.filter is_delegate_call
    (emitted (download_datasets default_url "./dataset")
       (Sample.fresh Sample.gdown_three_files))
  = [CallDownloadFolder default_url "./dataset" false true].
Proof.
  assert (result (ensure_target_directory "./dataset")
            (Sample.fresh Sample.gdown_three_files) = Returned ()) as Hp
    by (vm_compute; reflexivity).
  destruct (folder_sync_calls_delegate_once Sample.gdown_three_files
              default_url "./dataset" (Sample.fresh Sample.gdown_three_files))
    as (_ & Honce & _).
  exact (Honce eq_refl Hp).
Defined.

(** ** Command line *)









(** Reading never loses an attribute of the namespace. *)
Lemma read_occurrences_keeps (argv : list (string * string)) (name : string) :
  ∀ (ns ns' : gmap string string) (extras : bool),
    is_Some (ns !! name) →
    read_occurrences parser argv ns extras = Parsed ns' →
    is_Some (ns' !! name).
Proof.
  induction argv as [|[f v] argv IH]; intros ns ns' extras Hname; simpl.
  { destruct extras; [done|]. by intros [= <-]. }
  destruct (resolve_flag parser f) as [[a|]| |]; try done.
  - apply IH. destruct (decide (arg_dest a = name)) as [<-|Hne].
    + rewrite lookup_insert_eq. by eexists.
    + by rewrite lookup_insert_ne.
  - by apply IH.
Qed.

Lemma main_parsed (cl : list (string * string)) (w : world)
    (ns : gmap string string) u o :
  read_occurrences parser cl (defaults parser) false = Parsed ns →
  ns !! "url" = Some u → ns !! "output" = Some o →
  main cl w = download_datasets u o w.
Proof.
  intros Hread Hu Ho. unfold main, parse_args. rewrite Hread.
  unfold bind at 1, ret at 1. unfold getattr. rewrite Hu.
  unfold bind at 1, ret at 1. rewrite Ho.
  by unfold bind at 1, ret at 1.
Qed.

(** The three ways [main] can go: [argparse] shows the help, [argparse]
    refuses the command line, or [download_datasets] runs. *)
Lemma main_cases (cl : list (string * string)) (w : world) :
  (result (main cl) w = Raised (SystemExit 0)
   ∧ emitted (main cl) w = [Argparse HelpText])
  ∨ (result (main cl) w = Raised (SystemExit 2)
     ∧ emitted (main cl) w = [Argparse UsageError])
  ∨ (∃ u o, main cl w = download_datasets u o w).
Proof.
  destruct (read_occurrences parser cl (defaults parser) false) as [ns| |]
    eqn:Hread.
  - right. right.
    assert (is_Some (defaults parser !! "url")) as Hurl by (by eexists).
    assert (is_Some (defaults parser !! "output")) as Hout by (by eexists).
    destruct (read_occurrences_keeps cl "url" _ _ _ Hurl Hread) as [u Hu].
    destruct (read_occurrences_keeps cl "output" _ _ _ Hout Hread) as [o Ho].
    exists u, o. by eapply main_parsed.
  - left. unfold main, parse_args. rewrite Hread. split; [reflexivity|].
    apply (emitted_evolve _ w (fs w)). unfold final. unfold_py. simpl.
    evolve_eq.
  - right. left. unfold main, parse_args. rewrite Hread. split; [reflexivity|].
    apply (emitted_evolve _ w (fs w)). unfold final. unfold_py. simpl.
    evolve_eq.
Qed.

(** How the parser of the script reads some option strings. *)
Example resolve_flag_samples :
  names_option "--url" "--url" = true
  ∧ names_option "--u" "--url" = true
  ∧ names_option "--output" "--output" = true
  ∧ names_option "--out" "--output" = true
  ∧ resolve_flag parser "-h" = Resolved ToHelp
  ∧ resolve_flag parser "--help" = Resolved ToHelp
  ∧ resolve_flag parser "--he" = Resolved ToHelp
  ∧ resolve_flag parser "--retries" = Unknown
  ∧ resolve_flag parser "-o" = Unknown
  ∧ resolve_flag parser "--" = Ambiguous.
Proof. by vm_compute. Qed.



(** ** Directory preparation *)

Lemma path_exists_stat (w : world) (name : string) :
  path_exists w name = true
  ↔ name ≠ EmptyString ∧ is_Some (stat (fs w) (Path.resolve (cwd w) name)).
Proof.
  unfold path_exists. destruct (String.eqb_spec name EmptyString) as [->|Hne].
  - split; [done | by intros [[] _]].
  - rewrite bool_decide_eq_true. split; [done | by intros [_ ?]].
Qed.

Lemma ensure_target_directory_present (output_dir : string) (w : world) :
  path_exists w output_dir = true →
  ensure_target_directory output_dir w = (Returned (), w).
Proof.
  intros Hex. unfold ensure_target_directory. unfold_py. by rewrite Hex.
Qed.

Lemma ensure_target_directory_absent (output_dir : string) (w : world) :
  path_exists w output_dir = false →
  output_dir ≠ EmptyString →
  ensure_target_directory output_dir w
  = match makedirs_walk (fs w) [] (Path.resolve (cwd w) output_dir) with
    | (m, true) =>
        (Returned (),
         evolve w m [CallMakedirs output_dir; initialized_message output_dir])
    | (m, false) =>
        (Raised (enotdir output_dir), evolve w m [CallMakedirs output_dir])
    end.
Proof.
  intros Hex Hne. unfold ensure_target_directory. unfold_py. rewrite Hex.
  world_simpl.
  assert (stat (fs w) (Path.resolve (cwd w) output_dir) = None) as Hstat.
  { destruct (stat _ _) eqn:Hs; [|done].
    assert (path_exists w output_dir = true) by (apply path_exists_stat; eauto).
    congruence. }
  apply String.eqb_neq in Hne. rewrite Hne, Hstat.
  destruct (makedirs_walk _ _ _) as [m []]; f_equal; evolve_eq.
Qed.

(** Preparation never removes or changes a node of the tree. *)
Lemma ensure_target_directory_preserves (output_dir : string) (w : world) q k :
  fs w !! q = Some k →
  fs (final (ensure_target_directory output_dir) w) !! q = Some k.
Proof.
  intros Hq. unfold ensure_target_directory, final. unfold_py. world_simpl.
  destruct (path_exists w output_dir); world_simpl; [done|].
  destruct (String.eqb output_dir EmptyString); world_simpl; [done|].
  destruct (stat _ _); world_simpl; [done|].
  pose proof (makedirs_walk_preserves (Path.resolve (cwd w) output_dir)
                (fs w) [] q k Hq) as Hw.
  by destruct (makedirs_walk _ _ _) as [m []].
Qed.

(** C10. When [os.path.exists(output_dir)] holds at the call, directory
    preparation changes nothing at all (the world it leaves is the world it
    found), and the run of [download_datasets] contains neither a call of
    [os.makedirs] nor the 'Initialized local data directory' message;
    conversely, a run that contains one of the two, or a preparation that
    changes the tree, started with the directory absent. *)
Theorem existing_directory_left_untouched (folder_url output_dir : string)
    (w : world) :
  (path_exists w output_dir = true →
     ensure_target_directory output_dir w = (Returned (), w)
     ∧ ∀ ev, In ev (emitted (download_datasets folder_url output_dir) w) →
             is_creation_event ev = false)
  ∧ (∀ ev, In ev (emitted (download_datasets folder_url output_dir) w) →
           is_creation_event ev = true →
           path_exists w output_dir = false)
  ∧ (fs (final (ensure_target_directory output_dir) w) ≠ fs w →
     path_exists w output_dir = false).
Proof.
  assert (∀ ev, In ev (emitted (download_datasets folder_url output_dir) w) →
                is_creation_event ev = true →
                path_exists w output_dir = false) as Honly.
  { run_cases folder_url output_dir w; rewrite Hfin; clear Hfin Hres;
      try (intros; assumption);
      simpl; intros ev Hin Hev;
      repeat (destruct Hin as [<-|Hin]; try discriminate Hev);
      by destruct Hin. }
  split; [|split; [exact Honly|]].
  - intros Hex. split; [by apply ensure_target_directory_present|].
    intros ev Hin. destruct (is_creation_event ev) eqn:Hev; [|done].
    rewrite (Honly ev Hin Hev) in Hex. discriminate.
  - intros Hchanged. destruct (path_exists w output_dir) eqn:Hex; [|done].
    destruct Hchanged. unfold final.
    by rewrite (ensure_target_directory_present _ _ Hex).
Qed.

Lemma existing_directory_left_untouched_witness :
  path_exists (Sample.populated Sample.gdown_three_files) "./dataset" = true
  ∧ ensure_target_directory "./dataset"
      (Sample.populated Sample.gdown_three_files)
    = (Returned (), Sample.populated Sample.gdown_three_files).
Proof.
  assert (path_exists (Sample.populated Sample.gdown_three_files) "./dataset"
          = true) as Hex by (vm_compute; reflexivity).
  split; [exact Hex|].
  destruct (existing_directory_left_untouched default_url "./dataset"
              (Sample.populated Sample.gdown_three_files)) as [Hsame _].
  by destruct (Hsame Hex).
Defined.




(** ** Failure policy *)

Lemma emitted_unchanged {A} (c : py A) (w : world) :
  final c w = w → emitted c w = [].
Proof. unfold emitted. intros ->. apply drop_all. Qed.

(** C1 (amended). For every run in which the sync delegate raises an
    exception of class [Exception], [download_datasets] returns normally
    (exit status 0) after logging the failure and the remediation hint, and
    the audit step is skipped: the directory is not listed and no
    'Available Datasets' report is logged. *)
Theorem delegate_failure_skips_audit (gdown : gdown_module)
    (folder_url output_dir : string) (w : world) m e :
  import_gdown w = Imported gdown →
  result (ensure_target_directory output_dir) w = Returned () →
  download_folder gdown folder_url output_dir false true
    (fs (final (ensure_target_directory output_dir) w)) = (m, Some e) →
  isinstance_Exception e = true →
  result (download_datasets folder_url output_dir) w = Returned ()
  ∧ exit_status (result (download_datasets folder_url output_dir) w) = 0%Z
  ∧ emitted (download_datasets folder_url output_dir) w
    = emitted (ensure_target_directory output_dir) w
      ++ [Log INFO "Connecting to Google Drive remote storage...";
          Log INFO ("Remote URL: " +:+ folder_url);
          CallDownloadFolder folder_url output_dir false true;
          Log ERROR ("Synchronization failed: " +:+ str_exn e);
          Log WARNING
            "Check your internet connection and verify that the GDrive folder is public."]
  ∧ (∀ ev, In ev (emitted (download_datasets folder_url output_dir) w) →
           is_audit_event ev = false)
  ∧ fs (final (download_datasets folder_url output_dir) w) = m.
Proof.
  intros Hi Hp Hd He.
  run_cases folder_url output_dir w; try congruence.
  all: assert (gd = gdown) as -> by congruence.
  all: rewrite Hd in Hdl; simplify_eq.
  - rewrite (emitted_unchanged _ _ Hw1), Hfin.
    repeat split.
    simpl. intros ev Hin.
    repeat (destruct Hin as [<-|Hin]; [reflexivity|]). by destruct Hin.
  - rewrite (emitted_evolve _ _ _ _ Hw1), Hfin.
    repeat split.
    simpl. intros ev Hin.
    repeat (destruct Hin as [<-|Hin]; [reflexivity|]). by destruct Hin.
Qed.

Lemma delegate_failure_skips_audit_witness :
  result (download_datasets default_url "./dataset")
    (Sample.populated Sample.gdown_offline) = Returned ()
  ∧ ∀ ev, In ev (emitted (download_datasets default_url "./dataset")
                   (Sample.populated Sample.gdown_offline)) →
          is_audit_event ev = false.
Proof.
  assert (result (ensure_target_directory "./dataset")
            (Sample.populated Sample.gdown_offline) = Returned ()) as Hp
    by (vm_compute; reflexivity).
  destruct (delegate_failure_skips_audit Sample.gdown_offline default_url
              "./dataset" (Sample.populated Sample.gdown_offline)
              (<[Sample.home ++ ["dataset"; "a.mat"] := File]>
                 (fs (final (ensure_target_directory "./dataset")
                        (Sample.populated Sample.gdown_offline))))
              (Error ConnectionError "Max retries exceeded")
              eq_refl Hp eq_refl eq_refl)
    as (Hres & _ & _ & Hskip & _).
  split; [exact Hres | exact Hskip].
Defined.

(** C1, as stated, fails: with [./dataset] holding [old.mat] and a delegate
    that stores [a.mat] and then raises [ConnectionError], the run ends with
    status 0 but lists nothing and reports no datasets; the trace ends with
    the failure report. *)
Lemma audit_skipped_when_delegate_raises :
  run (options []) (Sample.populated Sample.gdown_offline) = 0%Z
  ∧ emitted (main (options [])) (Sample.populated Sample.gdown_offline)
    = [Log INFO "Connecting to Google Drive remote storage...";
       Log INFO ("Remote URL: " +:+ default_url);
       CallDownloadFolder default_url "./dataset" false true;
       Log ERROR "Synchronization failed: Max retries exceeded";
       Log WARNING
         "Check your internet connection and verify that the GDrive folder is public."]
  ∧ List.filter is_audit_event
      (emitted (main (options [])) (Sample.populated Sample.gdown_offline)) = []
  ∧ mat_files_of
      (entries (fs (final (main (options [])) (Sample.populated Sample.gdown_offline)))
         (Sample.home ++ ["dataset"]))
    = ["old.mat"; "a.mat"].
Proof. by vm_compute. Qed.

(** C2 (amended). Every exception of class [Exception] raised by the
    download delegate is caught: the failure is logged as an error, the
    remediation hint (connectivity, folder visibility) as a warning, and
    [download_datasets] returns normally, so the exit status is 0.  A
    non-zero exit status of the process occurs only when [argparse] refuses
    the command line (status 2), when the import of [gdown] fails, when
    directory creation (which is outside the [try]) raises, or when the
    delegate raises an exception that is not an instance of [Exception]. *)
Theorem delegate_exceptions_are_reported (folder_url output_dir : string)
    (w : world) :
  (∀ gdown m e,
     import_gdown w = Imported gdown →
     result (ensure_target_directory output_dir) w = Returned () →
     download_folder gdown folder_url output_dir false true
       (fs (final (ensure_target_directory output_dir) w)) = (m, Some e) →
     isinstance_Exception e = true →
     result (download_datasets folder_url output_dir) w = Returned ()
     ∧ exit_status (result (download_datasets folder_url output_dir) w) = 0%Z
     ∧ In (Log ERROR ("Synchronization failed: " +:+ str_exn e))
          (emitted (download_datasets folder_url output_dir) w)
     ∧ In (Log WARNING
             "Check your internet connection and verify that the GDrive folder is public.")
          (emitted (download_datasets folder_url output_dir) w))
  ∧ (exit_status (result (download_datasets folder_url output_dir) w) ≠ 0%Z →
     (∃ e, import_gdown w = ImportFails e)
     ∨ (∃ e, result (ensure_target_directory output_dir) w = Raised e)
     ∨ (∃ gdown m e,
          import_gdown w = Imported gdown
          ∧ download_folder gdown folder_url output_dir false true
              (fs (final (ensure_target_directory output_dir) w))
            = (m, Some e)
          ∧ isinstance_Exception e = false))
  ∧ (∀ cl, run cl w ≠ 0%Z →
       (result (main cl) w = Raised (SystemExit 2)
        ∧ emitted (main cl) w = [Argparse UsageError])
       ∨ ∃ url output,
           main cl w = download_datasets url output w
           ∧ ((∃ e, import_gdown w = ImportFails e)
              ∨ (∃ e, result (ensure_target_directory output) w = Raised e)
              ∨ (∃ gdown m e,
                   import_gdown w = Imported gdown
                   ∧ download_folder gdown url output false true
                       (fs (final (ensure_target_directory output) w))
                     = (m, Some e)
                   ∧ isinstance_Exception e = false))).
Proof.
  assert (∀ url output,
            exit_status (result (download_datasets url output) w) ≠ 0%Z →
            (∃ e, import_gdown w = ImportFails e)
            ∨ (∃ e, result (ensure_target_directory output) w = Raised e)
            ∨ (∃ gdown m e,
                 import_gdown w = Imported gdown
                 ∧ download_folder gdown url output false true
                     (fs (final (ensure_target_directory output) w))
                   = (m, Some e)
                 ∧ isinstance_Exception e = false)) as Hnonzero.
  { intros url output.
    run_cases url output w; simpl; try done; intros _.
    + left. by exists exc.
    + left. by exists exc.
    + right. left. by eexists.
    + right. right. by exists gd, tree2, exc.
    + right. right. by exists gd, tree2, exc. }
  split; [|split].
  - intros gdown m e Hi Hp Hd He.
    run_cases folder_url output_dir w; try congruence.
    all: assert (gd = gdown) as -> by congruence.
    all: rewrite Hd in Hdl; simplify_eq.
    all: rewrite Hfin; simpl; tauto.
  - apply Hnonzero.
  - intros cl Hrun. unfold run in Hrun.
    destruct (main_cases cl w) as [[Hres _]|[Hrefused|(url & output & Hmain)]].
    + by rewrite Hres in Hrun.
    + by left.
    + right. exists url, output. split; [done|]. apply Hnonzero.
      unfold result in *. by rewrite <- Hmain.
Qed.

Lemma delegate_exceptions_are_reported_witness :
  result (download_datasets default_url "./dataset")
    (Sample.fresh Sample.gdown_offline) = Returned ()
  ∧ In (Log ERROR "Synchronization failed: Max retries exceeded")
       (emitted (download_datasets default_url "./dataset")
          (Sample.fresh Sample.gdown_offline)).
Proof.
  assert (result (ensure_target_directory "./dataset")
            (Sample.fresh Sample.gdown_offline) = Returned ()) as Hp
    by (vm_compute; reflexivity).
  destruct (delegate_exceptions_are_reported default_url "./dataset"
              (Sample.fresh Sample.gdown_offline)) as [Hcaught _].
  destruct (Hcaught Sample.gdown_offline
              (<[Sample.home ++ ["dataset"; "a.mat"] := File]>
                 (fs (final (ensure_target_directory "./dataset")
                        (Sample.fresh Sample.gdown_offline))))
              (Error ConnectionError "Max retries exceeded")
              eq_refl Hp eq_refl eq_refl)
    as (Hres & _ & Herr & _).
  split; [exact Hres | exact Herr].
Defined.

(** C2, as stated, fails in three ways: a delegate interrupted from the
    keyboard raises [KeyboardInterrupt], which [except Exception] does not
    catch, so the exception leaves [download_datasets] and nothing is
    logged for it; with [gdown] installed, a regular file in the way of
    the output directory makes [os.makedirs] raise outside the [try], which
    ends the process with status 1; and, with [gdown] installed, an option
    the parser does not know ends the process with status 2. *)
Lemma uncaught_exceptions_leave_download_datasets :
  (result (download_datasets default_url "./dataset")
     (Sample.populated Sample.gdown_interrupted) = Raised KeyboardInterrupt
   ∧ emitted (download_datasets default_url "./dataset")
       (Sample.populated Sample.gdown_interrupted)
     = [Log INFO "Connecting to Google Drive remote storage...";
        Log INFO ("Remote URL: " +:+ default_url);
        CallDownloadFolder default_url "./dataset" false true])
  ∧ (import_gdown (Sample.blocked Sample.gdown_three_files)
     = Imported Sample.gdown_three_files
     ∧ exit_status
         (result (download_datasets default_url "data/out")
            (Sample.blocked Sample.gdown_three_files)) = 1%Z)
  ∧ (import_gdown (Sample.fresh Sample.gdown_three_files)
     = Imported Sample.gdown_three_files
     ∧ run (options [("--retries", "3")])
         (Sample.fresh Sample.gdown_three_files) = 2%Z).
Proof.
  split; [by vm_compute|].
  split; (split; [reflexivity | by vm_compute]).
Qed.

(** C8 (amended). Once the dependency check has succeeded, the only
    exception of class [Exception] that [download_datasets] can propagate
    is one raised by [os.makedirs] during directory preparation, which is
    outside the [try]; once preparation has returned, no exception of class
    [Exception] escapes.  The [try] block wraps the audit as well as the
    sync call: when the delegate returns and [os.listdir] raises, the
    exception is caught, logged as a synchronization failure with the
    remediation hint, and the function returns normally. *)
Theorem try_block_covers_sync_and_audit (gdown : gdown_module)
    (folder_url output_dir : string) (w : world) :
  import_gdown w = Imported gdown →
  (∀ e, result (download_datasets folder_url output_dir) w = Raised e →
        isinstance_Exception e = true →
        result (ensure_target_directory output_dir) w = Raised e)
  ∧ (result (ensure_target_directory output_dir) w = Returned () →
     ∀ e, result (download_datasets folder_url output_dir) w = Raised e →
          isinstance_Exception e = false)
  ∧ (∀ m e,
       result (ensure_target_directory output_dir) w = Returned () →
       download_folder gdown folder_url output_dir false true
         (fs (final (ensure_target_directory output_dir) w)) = (m, None) →
       result (os_listdir output_dir) (with_fs m w) = Raised e →
       result (download_datasets folder_url output_dir) w = Returned ()
       ∧ isinstance_Exception e = true
       ∧ ∃ before,
           emitted (download_datasets folder_url output_dir) w
           = before
             ++ [CallListdir output_dir;
                 Log ERROR ("Synchronization failed: " +:+ str_exn e);
                 Log WARNING
                   "Check your internet connection and verify that the GDrive folder is public."]).
Proof.
  intros Hi. split; [|split].
  - intros e. run_cases folder_url output_dir w; try congruence.
    all: intros [= <-] He; congruence.
  - intros Hp e. run_cases folder_url output_dir w; try congruence.
    all: by intros [= <-].
  - intros m e Hp Hd Hl.
    run_cases folder_url output_dir w; try congruence.
    all: assert (gd = gdown) as -> by congruence.
    all: rewrite Hd in Hdl; simplify_eq.
    all: erewrite os_listdir_result_ext in Hl; [rewrite Hlist in Hl|done..].
    all: simplify_eq.
    all: split; [done|]; split; [by eapply os_listdir_raises_error|].
    all: rewrite Hfin.
    + exists (connecting folder_url
              ++ CallDownloadFolder folder_url output_dir false true
                 :: completion_banner (cwd w) output_dir).
      by rewrite <- !app_assoc.
    + exists ([CallMakedirs output_dir; initialized_message output_dir]
              ++ connecting folder_url
              ++ CallDownloadFolder folder_url output_dir false true
                 :: completion_banner (cwd w) output_dir).
      by rewrite <- !app_assoc.
Qed.

Lemma try_block_covers_sync_and_audit_witness :
  result (os_listdir "./dataset")
    (with_fs
       (delete (Sample.home ++ ["dataset"])
          (fs (final (ensure_target_directory "./dataset")
                 (Sample.fresh Sample.gdown_wipes))))
       (Sample.fresh Sample.gdown_wipes))
  = Raised (Error FileNotFoundError
              "[Errno 2] No such file or directory: './dataset'")
  ∧ result (download_datasets default_url "./dataset")
      (Sample.fresh Sample.gdown_wipes) = Returned ().
Proof.
  assert (result (os_listdir "./dataset")
            (with_fs
               (delete (Sample.home ++ ["dataset"])
                  (fs (final (ensure_target_directory "./dataset")
                         (Sample.fresh Sample.gdown_wipes))))
               (Sample.fresh Sample.gdown_wipes))
          = Raised (Error FileNotFoundError
                      "[Errno 2] No such file or directory: './dataset'"))
    as Hl by (vm_compute; reflexivity).
  assert (result (ensure_target_directory "./dataset")
            (Sample.fresh Sample.gdown_wipes) = Returned ()) as Hp
    by (vm_compute; reflexivity).
  split; [exact Hl|].
  destruct (try_block_covers_sync_and_audit Sample.gdown_wipes default_url
              "./dataset" (Sample.fresh Sample.gdown_wipes) eq_refl)
    as (_ & _ & Haudit).
  destruct (Haudit _ _ Hp eq_refl Hl) as [Hres _].
  exact Hres.
Defined.

(** C8, as stated, fails: with [gdown] installed and a regular file named
    [data] in the working directory, [download_datasets] called for
    [data/out] propagates the [NotADirectoryError] that [os.makedirs]
    raises, an exception of class [Exception]. *)
Lemma makedirs_error_escapes_download_datasets :
  import_gdown (Sample.blocked Sample.gdown_three_files)
  = Imported Sample.gdown_three_files
  ∧ result check_dependencies (Sample.blocked Sample.gdown_three_files)
    = Returned Sample.gdown_three_files
  ∧ result (download_datasets default_url "data/out")
      (Sample.blocked Sample.gdown_three_files)
    = Raised (Error NotADirectoryError
                "[Errno 20] Not a directory: 'data/out'")
  ∧ isinstance_Exception
      (Error NotADirectoryError "[Errno 20] Not a directory: 'data/out'")
    = true.
Proof.
  split; [reflexivity|]. split; [reflexivity|].
  split; [by vm_compute | reflexivity].
Qed.

(** * Further properties of the script *)

(** ** The successful run *)

(** X1. When the import succeeds, the preparation returns, the delegate
    returns and the directory can be listed, [download_datasets] returns
    normally and does, after the preparation, exactly this, in this order:
    it logs the two connection lines, calls the delegate, logs a rule of
    sixty '=', the completion line and the absolute path of the output
    directory, lists the directory, logs the report and a closing rule; the
    tree it leaves is the one the delegate left. *)
Theorem successful_run_trace (gdown : gdown_module)
    (folder_url output_dir : string) (w : world) m (names : list string) :
  import_gdown w = Imported gdown →
  result (ensure_target_directory output_dir) w = Returned () →
  download_folder gdown folder_url output_dir false true
    (fs (final (ensure_target_directory output_dir) w)) = (m, None) →
  result (os_listdir output_dir) (with_fs m w) = Returned names →
  result (download_datasets folder_url output_dir) w = Returned ()
  ∧ emitted (download_datasets folder_url output_dir) w
    = emitted (ensure_target_directory output_dir) w
      ++ [Log INFO "Connecting to Google Drive remote storage...";
          Log INFO ("Remote URL: " +:+ folder_url);
          CallDownloadFolder folder_url output_dir false true;
          Log INFO "============================================================";
          Log INFO "Dataset synchronization complete!";
          Log INFO ("Local Storage Path: "
                    +:+ Path.abspath (cwd w) output_dir);
          CallListdir output_dir;
          Log INFO ("Available Datasets ("
                    +:+ PyStr.str_nat (length (mat_files_of names))
                    +:+ "): " +:+ PyStr.join ", " (mat_files_of names));
          Log INFO "============================================================"]
  ∧ fs (final (download_datasets folder_url output_dir) w) = m.
Proof.
  intros Hi Hp Hd Hl.
  run_cases folder_url output_dir w; try congruence.
  all: assert (gd = gdown) as -> by congruence.
  all: rewrite Hd in Hdl; simplify_eq.
  all: erewrite os_listdir_result_ext in Hl; [rewrite Hlist in Hl|done..].
  all: simplify_eq.
  - by rewrite (emitted_unchanged _ _ Hw1), Hfin.
  - by rewrite (emitted_evolve _ _ _ _ Hw1), Hfin.
Qed.

Lemma successful_run_trace_witness :
  result (download_datasets default_url "./dataset")
    (Sample.stocked Scenario.gdown_idle) = Returned ()
  ∧ fs (final (download_datasets default_url "./dataset")
          (Sample.stocked Scenario.gdown_idle))
    = fs (final (ensure_target_directory "./dataset")
            (Sample.stocked Scenario.gdown_idle)).
Proof.
  assert (result (ensure_target_directory "./dataset")
            (Sample.stocked Scenario.gdown_idle) = Returned ()) as Hp
    by (vm_compute; reflexivity).
  assert (result (os_listdir "./dataset")
            (with_fs
               (fs (final (ensure_target_directory "./dataset")
                      (Sample.stocked Scenario.gdown_idle)))
               (Sample.stocked Scenario.gdown_idle))
          = Returned ["notes.txt"; "b.mat"; "a.mat"]) as Hl
    by (vm_compute; reflexivity).
  destruct (successful_run_trace Scenario.gdown_idle default_url "./dataset"
              (Sample.stocked Scenario.gdown_idle) _ _ eq_refl Hp eq_refl Hl)
    as (Hres & _ & Hfs).
  split; [exact Hres | exact Hfs].
Defined.

(** X2. The line 'Dataset synchronization complete!' is logged in exactly
    the runs in which the delegate was called and returned: never when the
    import or the preparation failed or the delegate raised, and always
    once the delegate has returned, whatever the audit does afterwards. *)
Theorem completion_logged_iff_delegate_returned
    (folder_url output_dir : string) (w : world) :
  In (Log INFO "Dataset synchronization complete!")
     (emitted (download_datasets folder_url output_dir) w)
  ↔ ∃ gdown m,
      import_gdown w = Imported gdown
      ∧ result (ensure_target_directory output_dir) w = Returned ()
      ∧ download_folder gdown folder_url output_dir false true
          (fs (final (ensure_target_directory output_dir) w)) = (m, None).
Proof.
  run_cases folder_url output_dir w; rewrite Hfin; clear Hfin Hres.
  all: split;
    [ simpl; intros Hin;
      try (by exists gd, tree2);
      repeat (destruct Hin as [Hin|Hin]; [discriminate Hin|]);
      by destruct Hin
    | intros (gdown & m & Hi & Hp & Hd);
      try congruence;
      try (assert (gd = gdown) as -> by congruence;
           rewrite Hd in Hdl; discriminate Hdl);
      simpl; tauto ].
Qed.

Lemma completion_logged_iff_delegate_returned_witness :
  In (Log INFO "Dataset synchronization complete!")
     (emitted (download_datasets default_url "./dataset")
        (Sample.stocked Scenario.gdown_idle)).
Proof.
  apply completion_logged_iff_delegate_returned.
  exists Scenario.gdown_idle,
    (fs (final (ensure_target_directory "./dataset")
           (Sample.stocked Scenario.gdown_idle))).
  split; [reflexivity|]. split; [by vm_compute | reflexivity].
Defined.

(** ** What a run leaves on disk *)

(** X3. The script itself removes and overwrites nothing: if the delegate
    keeps every node of the tree it is handed, every node that was there
    before the call of [download_datasets] is there afterwards, with the
    same kind, however the run ends. *)
Theorem run_keeps_nodes_kept_by_delegate (folder_url output_dir : string)
    (w : world) (q : path) (k : kind) :
  (∀ gdown q' k',
     import_gdown w = Imported gdown →
     fs (final (ensure_target_directory output_dir) w) !! q' = Some k' →
     (download_folder gdown folder_url output_dir false true
        (fs (final (ensure_target_directory output_dir) w))).1 !! q'
     = Some k') →
  fs w !! q = Some k →
  fs (final (download_datasets folder_url output_dir) w) !! q = Some k.
Proof.
  intros Hkeeps Hq.
  pose proof (ensure_target_directory_preserves output_dir w q k Hq) as Hprep.
  run_cases folder_url output_dir w; try done.
  all: specialize (Hkeeps gd q k Himp Hprep); by rewrite Hdl in Hkeeps.
Qed.

Lemma run_keeps_nodes_kept_by_delegate_witness :
  fs (final (download_datasets default_url "./dataset")
        (Sample.populated Scenario.gdown_idle))
    !! (Sample.home ++ ["dataset"; "old.mat"]) = Some File.
Proof.
  apply run_keeps_nodes_kept_by_delegate.
  - intros gdown q' k' [= <-] Hq'. exact Hq'.
  - by vm_compute.
Defined.

(** ** Fail-fast dependency check *)

(** X4. The dependency check comes before every other effect: when
    [import gdown] fails, with whatever exception, [download_datasets]
    makes no call to [os.makedirs], [os.listdir] or the delegate and leaves
    the tree as it was.  When the exception is not an [ImportError], it is
    not caught either: it reaches the caller unchanged, nothing is logged
    or printed, and the world is exactly the one before the call. *)
Theorem import_failure_touches_nothing (folder_url output_dir : string)
    (w : world) (e : exn) :
  import_gdown w = ImportFails e →
  fs (final (download_datasets folder_url output_dir) w) = fs w
  ∧ (∀ ev, In ev (emitted (download_datasets folder_url output_dir) w) →
           is_external_call ev = false)
  ∧ (isinstance_ImportError e = false →
     download_datasets folder_url output_dir w = (Raised e, w)
     ∧ emitted (download_datasets folder_url output_dir) w = []).
Proof.
  intros Hi. destruct (isinstance_ImportError e) eqn:He.
  - pose proof (check_dependencies_not_installed w e Hi He) as Hrun.
    assert (download_datasets folder_url output_dir w
            = (Raised (SystemExit 1), evolve w (fs w) install_instructions))
      as Hdd by (unfold download_datasets, bind; by rewrite Hrun).
    assert (emitted (download_datasets folder_url output_dir) w
            = install_instructions) as Hem
      by (eapply emitted_evolve; unfold final; by rewrite Hdd).
    unfold final at 1. rewrite Hdd, Hem. split; [done|]. split; [|done].
    simpl. intros ev Hin.
    repeat (destruct Hin as [<-|Hin]; [reflexivity|]). by destruct Hin.
  - pose proof (check_dependencies_escapes w e Hi He) as Hrun.
    assert (download_datasets folder_url output_dir w = (Raised e, w))
      as Hdd by (unfold download_datasets, bind; by rewrite Hrun).
    assert (emitted (download_datasets folder_url output_dir) w = []) as Hem
      by (apply emitted_unchanged; unfold final; by rewrite Hdd).
    unfold final at 1. rewrite Hdd, Hem. by repeat split.
Qed.

Lemma import_failure_touches_nothing_witness :
  download_datasets default_url "./dataset" Scenario.broken_gdown
  = (Raised (Error RuntimeError "bad installation"), Scenario.broken_gdown).
Proof.
  destruct (import_failure_touches_nothing default_url "./dataset"
              Scenario.broken_gdown
              (Error RuntimeError "bad installation") eq_refl)
    as (_ & _ & Hescapes).
  by destruct (Hescapes eq_refl).
Defined.

(** ** The order of the steps *)

Lemma app_cons_eq_cons {A} (l1 l2 : list A) (x a : A) (l : list A) :
  l1 ++ x :: l2 = a :: l →
  (l1 = [] ∧ x = a ∧ l2 = l) ∨ (∃ l1', l1 = a :: l1' ∧ l1' ++ x :: l2 = l).
Proof.
  destruct l1 as [|b l1]; simpl; intros Heq; injection Heq as Hhd Htl.
  - by left.
  - right. exists l1. by rewrite Hhd.
Qed.

Ltac locate_call Heq Hcall :=
  repeat
    (apply app_cons_eq_cons in Heq as [(-> & -> & ->)|(? & -> & Heq)];
     [try discriminate Hcall|]);
  try (by destruct (app_cons_not_nil _ _ _ (eq_sym Heq))).

(** X5. The steps run in the order preparation, sync, audit: in every run,
    nothing of the audit (no listing, no report) and no other call of the
    delegate comes before the call of the delegate, and nothing of the
    directory creation (no [os.makedirs], no 'Initialized' message) and no
    other call of the delegate comes after it. *)
Theorem steps_run_in_order (folder_url output_dir : string) (w : world)
    (before after : list event) (call : event) :
  emitted (download_datasets folder_url output_dir) w
  = before ++ call :: after →
  is_delegate_call call = true →
  (∀ ev, In ev before →
         is_audit_event ev = false ∧ is_delegate_call ev = false)
  ∧ (∀ ev, In ev after →
           is_creation_event ev = false ∧ is_delegate_call ev = false).
Proof.
  intros Heq Hcall.
  run_cases folder_url output_dir w; rewrite Hfin in Heq; clear Hfin Hres.
  all: symmetry in Heq;
    unfold install_instructions, connecting, failure_report,
      completion_banner in Heq;
    simpl in Heq.
  all: locate_call Heq Hcall.
  all: split; simpl; intros ev Hin;
    repeat (destruct Hin as [<-|Hin]; [by split|]); by destruct Hin.
Qed.

Lemma steps_run_in_order_witness :
  emitted (download_datasets default_url "./dataset")
    (Sample.fresh Sample.gdown_offline)
  = [CallMakedirs "./dataset"; initialized_message "./dataset";
     Log INFO "Connecting to Google Drive remote storage...";
     Log INFO ("Remote URL: " +:+ default_url)]
    ++ CallDownloadFolder default_url "./dataset" false true
       :: [Log ERROR "Synchronization failed: Max retries exceeded";
           Log WARNING remediation_hint]
  ∧ is_creation_event
      (Log ERROR "Synchronization failed: Max retries exceeded") = false
  ∧ is_audit_event (CallMakedirs "./dataset") = false.
Proof.
  assert (emitted (download_datasets default_url "./dataset")
            (Sample.fresh Sample.gdown_offline)
          = [CallMakedirs "./dataset"; initialized_message "./dataset";
             Log INFO "Connecting to Google Drive remote storage...";
             Log INFO ("Remote URL: " +:+ default_url)]
            ++ CallDownloadFolder default_url "./dataset" false true
               :: [Log ERROR "Synchronization failed: Max retries exceeded";
                   Log WARNING remediation_hint]) as Heq
    by (vm_compute; reflexivity).
  split; [exact Heq|].
  destruct (steps_run_in_order default_url "./dataset"
              (Sample.fresh Sample.gdown_offline) _ _ _ Heq eq_refl)
    as [Hbefore Hafter].
  split.
  - apply (Hafter (Log ERROR "Synchronization failed: Max retries exceeded")).
    by left.
  - apply (Hbefore (CallMakedirs "./dataset")). by left.
Defined.

(** ** Directory preparation, continued *)

Lemma makedirs_walk_reached rest :
  ∀ (m : gmap path kind) (made : path),
    (makedirs_walk m made rest).2 = true →
    ∀ r1 r2, rest = r1 ++ r2 → r1 ≠ [] →
      (makedirs_walk m made rest).1 !! (made ++ r1) = Some Dir.
Proof.
  induction rest as [|c rest IH]; intros m made Hdone r1 r2 Heq Hne.
  { by destruct r1. }
  destruct r1 as [|d r1]; [done|]. injection Heq as <- ->.
  simpl in *. rewrite stat_snoc in *.
  assert (∀ m', m' !! (made ++ [c]) = Some Dir →
                (makedirs_walk m' (made ++ [c]) (r1 ++ r2)).2 = true →
                (makedirs_walk m' (made ++ [c]) (r1 ++ r2)).1
                  !! (made ++ c :: r1) = Some Dir) as Hstep.
  { intros m' Hc Hdone'. destruct r1 as [|d r1].
    - by apply makedirs_walk_preserves.
    - specialize (IH m' (made ++ [c]) Hdone' (d :: r1) r2 eq_refl).
      rewrite <- app_assoc in IH. by apply IH. }
  destruct (m !! (made ++ [c])) as [[]|] eqn:Hc.
  - discriminate Hdone.
  - by apply Hstep.
  - apply Hstep; [by rewrite lookup_insert_eq | done].
Qed.

(** X6. For an output path without [..] components: whenever directory
    preparation returns normally, the output path exists ([os.path.exists]
    holds) in the tree it leaves, so it holds when the delegate is called,
    and preparing again is a no-op that returns normally.  For every output
    path, the 'Initialized local data directory' message is logged exactly
    when the path was absent and [os.makedirs] returned: a failed creation
    is never reported as done.  (With a [..] component [os.makedirs] can
    return although the path does not exist afterwards: for [a/../f/.],
    with [a] absent and [f] a regular file, it creates [a], meets
    [FileExistsError] twice on the way up and takes it for a race.) *)
Theorem preparation_establishes_path (folder_url output_dir : string)
    (w : world) :
  (dotdot_free output_dir →
   result (ensure_target_directory output_dir) w = Returned () →
   path_exists (final (ensure_target_directory output_dir) w) output_dir
   = true
   ∧ ensure_target_directory output_dir
       (final (ensure_target_directory output_dir) w)
     = (Returned (), final (ensure_target_directory output_dir) w))
  ∧ (In (Log INFO ("Initialized local data directory: " +:+ output_dir))
        (emitted (ensure_target_directory output_dir) w)
     ↔ path_exists w output_dir = false
       ∧ result (ensure_target_directory output_dir) w = Returned ())
  ∧ (dotdot_free output_dir →
     ∀ ev, In ev (emitted (download_datasets folder_url output_dir) w) →
           is_delegate_call ev = true →
           path_exists (final (ensure_target_directory output_dir) w)
             output_dir = true).
Proof.
  assert (result (ensure_target_directory output_dir) w = Returned () →
          path_exists (final (ensure_target_directory output_dir) w)
            output_dir = true) as Hexists.
  { intros Hr. destruct (path_exists w output_dir) eqn:Hex.
    { unfold final. by rewrite (ensure_target_directory_present _ _ Hex). }
    destruct (String.eqb_spec output_dir EmptyString) as [->|Hne].
    { by vm_compute in Hr. }
    pose proof (ensure_target_directory_absent _ _ Hex Hne) as Hrun.
    pose proof (makedirs_walk_reached (Path.resolve (cwd w) output_dir)
                  (fs w) []) as Hreached.
    unfold result in Hr. unfold final. rewrite Hrun in Hr |- *.
    destruct (makedirs_walk _ _ _) as [m []]; [|discriminate Hr].
    simpl in *. apply path_exists_stat. split; [done|]. simpl.
    destruct (Path.resolve (cwd w) output_dir) as [|c p] eqn:Hp; [by eexists|].
    exists Dir. by apply (Hreached eq_refl (c :: p) []); [rewrite app_nil_r|]. }
  split; [|split].
  - intros _ Hr. split; [by apply Hexists|].
    by apply ensure_target_directory_present, Hexists.
  - split.
    + intros Hin. destruct (result (ensure_target_directory output_dir) w)
        as [[]|e] eqn:Hr.
      * destruct (ensure_target_directory_returned _ _ Hr)
          as [[_ Hw1]|(Hex & m & Hw1)]; [|done].
        by rewrite (emitted_unchanged _ _ Hw1) in Hin.
      * destruct (ensure_target_directory_raised _ _ _ Hr)
          as (_ & m & cls & text & _ & Hw1).
        rewrite (emitted_evolve _ _ _ _ Hw1) in Hin.
        by destruct Hin as [Hin|[]].
    + intros [Hex Hr].
      destruct (ensure_target_directory_returned _ _ Hr)
        as [[Hex' _]|(_ & m & Hw1)]; [congruence|].
      rewrite (emitted_evolve _ _ _ _ Hw1). right. by left.
  - intros _ ev Hin Hcall.
    destruct (result (ensure_target_directory output_dir) w) as [[]|e] eqn:Hr;
      [by apply Hexists|].
    exfalso. revert Hin Hcall.
    run_cases folder_url output_dir w; rewrite Hfin; try congruence.
    all: simpl; intros Hin Hcall;
      repeat (destruct Hin as [<-|Hin]; [discriminate Hcall|]);
      by destruct Hin.
Qed.

Lemma preparation_establishes_path_witness :
  path_exists
    (final (ensure_target_directory "data/views/raw")
       (Sample.fresh Scenario.gdown_idle)) "data/views/raw" = true.
Proof.
  destruct (preparation_establishes_path default_url "data/views/raw"
              (Sample.fresh Scenario.gdown_idle)) as [Hret _].
  destruct Hret as [Hex _]; [|by vm_compute | exact Hex].
  vm_compute. intros [Hin|[Hin|[Hin|[]]]]; discriminate Hin.
Defined.

(** ** The audit, continued *)

Lemma audit_keeps_tree (output_dir : string) (w : world) :
  fs (final (audit output_dir) w) = fs w.
Proof.
  unfold audit, final. unfold_py. world_simpl.
  destruct (String.eqb output_dir EmptyString); [done|].
  by destruct (stat _ _) as [[]|].
Qed.

(** X7. The audit only observes.  It never changes the tree, and once the
    delegate has returned, [download_datasets] returns normally, with exit
    status 0 and the delegate's tree, whether the listing succeeds or not.
    When the listing raises, the log holds both the line 'Dataset
    synchronization complete!' and, after it, the error 'Synchronization
    failed: ...' for the listing's exception, and no report of datasets. *)
Theorem audit_only_observes (gdown : gdown_module)
    (folder_url output_dir : string) (w : world) m :
  import_gdown w = Imported gdown →
  result (ensure_target_directory output_dir) w = Returned () →
  download_folder gdown folder_url output_dir false true
    (fs (final (ensure_target_directory output_dir) w)) = (m, None) →
  (∀ w0, fs (final (audit output_dir) w0) = fs w0)
  ∧ result (download_datasets folder_url output_dir) w = Returned ()
  ∧ exit_status (result (download_datasets folder_url output_dir) w) = 0%Z
  ∧ fs (final (download_datasets folder_url output_dir) w) = m
  ∧ (∀ e, result (os_listdir output_dir) (with_fs m w) = Raised e →
          ∃ before,
            emitted (download_datasets folder_url output_dir) w
            = before
              ++ [Log INFO "Dataset synchronization complete!";
                  Log INFO ("Local Storage Path: "
                            +:+ Path.abspath (cwd w) output_dir);
                  CallListdir output_dir;
                  Log ERROR ("Synchronization failed: " +:+ str_exn e);
                  Log WARNING remediation_hint]).
Proof.
  intros Hi Hp Hd. split; [intros w0; apply audit_keeps_tree|].
  run_cases folder_url output_dir w; try congruence.
  all: assert (gd = gdown) as -> by congruence.
  all: rewrite Hd in Hdl; simplify_eq.
  all: repeat split.
  all: intros e Hl.
  all: erewrite os_listdir_result_ext in Hl; [rewrite Hlist in Hl|done..].
  all: simplify_eq; rewrite Hfin.
  - exists (connecting folder_url
            ++ [CallDownloadFolder folder_url output_dir false true; rule]).
    by rewrite <- !app_assoc.
  - exists ([CallMakedirs output_dir; initialized_message output_dir]
            ++ connecting folder_url
            ++ [CallDownloadFolder folder_url output_dir false true; rule]).
    by rewrite <- !app_assoc.
Qed.

Lemma audit_only_observes_witness :
  result (download_datasets default_url "./dataset")
    (Sample.fresh Sample.gdown_wipes) = Returned ()
  ∧ fs (final (download_datasets default_url "./dataset")
          (Sample.fresh Sample.gdown_wipes))
    = delete (Sample.home ++ ["dataset"])
        (fs (final (ensure_target_directory "./dataset")
               (Sample.fresh Sample.gdown_wipes))).
Proof.
  assert (result (ensure_target_directory "./dataset")
            (Sample.fresh Sample.gdown_wipes) = Returned ()) as Hp
    by (vm_compute; reflexivity).
  destruct (audit_only_observes Sample.gdown_wipes default_url "./dataset"
              (Sample.fresh Sample.gdown_wipes) _ eq_refl Hp eq_refl)
    as (_ & Hres & _ & Hfs & _).
  split; [exact Hres | exact Hfs].
Defined.

(** X8. The audit does not depend on the order in which the directory is
    listed: for two listings that are permutations of each other, the names
    reported are permutations of each other and the count reported is the
    same. *)
Theorem audit_count_independent_of_listing_order (names names' : list string) :
  names ≡ₚ names' →
  mat_files_of names ≡ₚ mat_files_of names'
  ∧ length (mat_files_of names) = length (mat_files_of names')
  ∧ ∃ shown, shown ≡ₚ mat_files_of names
             ∧ available_datasets (mat_files_of names')
               = "Available Datasets ("
                 +:+ PyStr.str_nat (length (mat_files_of names)) +:+ "): "
                 +:+ PyStr.join ", " shown.
Proof.
  intros Hperm.
  assert (mat_files_of names ≡ₚ mat_files_of names') as Hmat.
  { unfold mat_files_of. induction Hperm as [|f l l' _ IH|f g l|l1 l2 l3 _ IH1 _ IH2];
      simpl.
    - done.
    - destruct (PyStr.endswith f ".mat"); by rewrite ?IH.
    - destruct (PyStr.endswith f ".mat"), (PyStr.endswith g ".mat");
        try done. apply perm_swap.
    - by rewrite IH1. }
  split; [done|]. split; [by rewrite Hmat|].
  exists (mat_files_of names'). split; [done|].
  unfold available_datasets. by rewrite Hmat.
Qed.

Lemma audit_count_independent_of_listing_order_witness :
  length (mat_files_of ["notes.txt"; "b.mat"; "a.mat"])
  = length (mat_files_of ["a.mat"; "b.mat"; "notes.txt"]).
Proof.
  destruct (audit_count_independent_of_listing_order
              ["notes.txt"; "b.mat"; "a.mat"] ["a.mat"; "b.mat"; "notes.txt"])
    as (_ & Hlen & _); [|exact Hlen].
  apply NoDup_Permutation.
  - apply NoDup_ListNoDup. repeat constructor; simpl; intuition discriminate.
  - apply NoDup_ListNoDup. repeat constructor; simpl; intuition discriminate.
  - intros f. rewrite !list_elem_of_In. simpl. tauto.
Defined.

(** ** Edge cases of the output path *)

(** X9. An empty output path is rejected before anything is downloaded:
    [os.path.exists('')] is false, [os.makedirs('')] raises
    [FileNotFoundError] outside the [try], and the exception leaves
    [download_datasets]; the delegate is not called, nothing is logged, and
    the tree is unchanged. *)
Theorem empty_output_path_is_rejected (gdown : gdown_module)
    (folder_url : string) (w : world) :
  import_gdown w = Imported gdown →
  result (download_datasets folder_url EmptyString) w
  = Raised (Error FileNotFoundError
              "[Errno 2] No such file or directory: ''")
  ∧ emitted (download_datasets folder_url EmptyString) w
    = [CallMakedirs EmptyString]
  ∧ fs (final (download_datasets folder_url EmptyString) w) = fs w
  ∧ exit_status (result (download_datasets folder_url EmptyString) w) = 1%Z.
Proof.
  intros Hi.
  assert (download_datasets folder_url EmptyString w
          = (Raised (enoent EmptyString),
             evolve w (fs w) [CallMakedirs EmptyString])) as Hrun.
  { rewrite (download_datasets_imported _ _ _ _ Hi).
    unfold ensure_target_directory. unfold_py. simpl.
    first [reflexivity | f_equal; evolve_eq]. }
  assert (emitted (download_datasets folder_url EmptyString) w
          = [CallMakedirs EmptyString]) as Hem
    by (eapply emitted_evolve; unfold final; by rewrite Hrun).
  unfold result, final. by rewrite Hem, Hrun.
Qed.

Lemma empty_output_path_is_rejected_witness :
  exit_status
    (result (download_datasets default_url EmptyString)
       (Sample.fresh Scenario.gdown_idle)) = 1%Z.
Proof.
  destruct (empty_output_path_is_rejected Scenario.gdown_idle default_url
              (Sample.fresh Scenario.gdown_idle) eq_refl)
    as (_ & _ & _ & Hexit).
  exact Hexit.
Defined.

Lemma os_listdir_regular_file (name : string) (w : world) :
  name ≠ EmptyString →
  stat (fs w) (Path.resolve (cwd w) name) = Some File →
  result (os_listdir name) w = Raised (enotdir name).
Proof.
  intros Hne Hstat. unfold result. unfold_py. world_simpl.
  apply String.eqb_neq in Hne. by rewrite Hne, Hstat.
Qed.

(** X10. When the output path, written without [..] components and
    without a trailing slash or dot, names an existing regular file,
    nothing stops the run early: the preparation takes the path as present and
    creates nothing, and the delegate is called.  If the delegate returns
    and the path is still a regular file, the listing raises
    [NotADirectoryError], which the handler reports (with the text of the
    exception) after the completion line, and the run ends normally with
    exit status 0 and without a report of datasets. *)
Theorem regular_file_as_output_path (gdown : gdown_module)
    (folder_url output_dir : string) (w : world) m :
  import_gdown w = Imported gdown →
  dotdot_free output_dir →
  names_entry output_dir →
  stat (fs w) (Path.resolve (cwd w) output_dir) = Some File →
  download_folder gdown folder_url output_dir false true (fs w) = (m, None) →
  stat m (Path.resolve (cwd w) output_dir) = Some File →
  ensure_target_directory output_dir w = (Returned (), w)
  ∧ result (download_datasets folder_url output_dir) w = Returned ()
  ∧ exit_status (result (download_datasets folder_url output_dir) w) = 0%Z
  ∧ ∃ text,
      result (os_listdir output_dir) (with_fs m w)
      = Raised (Error NotADirectoryError text)
      ∧ emitted (download_datasets folder_url output_dir) w
        = [Log INFO "Connecting to Google Drive remote storage...";
           Log INFO ("Remote URL: " +:+ folder_url);
           CallDownloadFolder folder_url output_dir false true;
           Log INFO "============================================================";
           Log INFO "Dataset synchronization complete!";
           Log INFO ("Local Storage Path: "
                     +:+ Path.abspath (cwd w) output_dir);
           CallListdir output_dir;
           Log ERROR ("Synchronization failed: " +:+ text);
           Log WARNING remediation_hint].
Proof.
  intros Hi _ Hentry Hfile Hd Hfile'.
  assert (output_dir ≠ EmptyString) as Hne.
  { intros ->. destruct Hentry as (c & Hlast & Hc & _).
    vm_compute in Hlast. by injection Hlast as <-. }
  assert (path_exists w output_dir = true) as Hex
    by (apply path_exists_stat; eauto).
  pose proof (ensure_target_directory_present _ _ Hex) as Hprep.
  split; [exact Hprep|].
  assert (result (os_listdir output_dir) (with_fs m w)
          = Raised (enotdir output_dir)) as Hl
    by (by apply os_listdir_regular_file).
  run_cases folder_url output_dir w; try congruence.
  all: assert (gd = gdown) as -> by congruence.
  all: rewrite Hd in Hdl; simplify_eq.
  all: pose proof Hl as Hl'.
  all: erewrite os_listdir_result_ext in Hl; [rewrite Hlist in Hl|done..].
  all: simplify_eq.
  repeat split.
  exists ("[Errno 20] Not a directory: " +:+ quote output_dir).
  split; [exact Hl'|]. by rewrite Hfin.
Qed.

Lemma regular_file_as_output_path_witness :
  result (download_datasets default_url "data")
    (Sample.blocked Scenario.gdown_idle) = Returned ().
Proof.
  destruct (regular_file_as_output_path Scenario.gdown_idle default_url "data"
              (Sample.blocked Scenario.gdown_idle)
              (fs (Sample.blocked Scenario.gdown_idle)))
    as (_ & Hres & _);
    [reflexivity | | | by vm_compute | reflexivity
    | by vm_compute | exact Hres].
  - vm_compute. intros [Hin|[]]; discriminate Hin.
  - exists "data". by vm_compute.
Defined.
